(** * InterioWala: the browser document store and its caches

    A shallow embedding of [Frontend/lib/mongodb.ts] (the mock document
    store kept in [localStorage], its predicate matcher [deepCompare] and
    the per-collection mirror [collectionCache]) and of the result cache
    of the service layer ([serviceCache], [CACHE_EXPIRATION],
    [designService.getAll], [invalidateServiceCache]).

    Conventions of the embedding.
    - JavaScript values are the inductive type [value]. Numbers are the
      integers ([Z], exact for the integers a double holds); [NaN] only
      arises inside a comparison. A string converts to a number inside
      the embedding only when it is an integer literal a double holds
      exactly; what [<] and its like answer on any other numeric
      string is the engine's, a parameter. Strings are sequences of
      code units ([string]).
    - An object is the list of its own properties in insertion order;
      reading a property takes the first binding, so JavaScript objects
      are the lists with distinct keys. The order is kept because
      [JSON.stringify] depends on it.
    - Two distinct objects are never [===]. A filter is built by the
      caller and the documents are owned by the store, so the embedding
      takes an object of the one never to be the same reference as an
      object of the other: [===] on two objects is [false].
    - A document handed to [insertOne] or [insertMany] is a fresh
      object, so no array of the store holds one object at two places
      and the update in place of [updateOne] is the replacement of one
      element.
    - A JSON text is represented by its syntax tree [json]; printing a
      tree is injective, so comparing two texts is comparing two trees.
    - The browser (the regular-expression engine, the quota of
      [localStorage], [Math.random], the numbers outside the embedding)
      is a parameter of the store. *)

From Stdlib Require Import ZArith String Ascii List Bool Lia.
From stdpp Require Import base option list gmap strings pretty.

#[local] Set Warnings "-register-all".

Local Open Scope string_scope.
Local Open Scope Z_scope.

(** ** JavaScript values *)

Inductive value : Type :=
| VUndefined
| VNull
| VBool (b : bool)
| VNum (n : Z)
| VStr (s : string)
| VArr (elems : list value)
| VObj (props : list (string * value))
| VObjectId (id : string).

(** The own properties of an object literal. *)
Abbreviation obj := (list (string * value)).

(** [ToBoolean]: what [if (v)], [v && ...] and [!v] test. *)
Definition truthy (v : value) : bool :=
  match v with
  | VUndefined | VNull => false
  | VBool b => b
  | VNum n => negb (n =? 0)
  | VStr s => negb (String.eqb s "")
  | VArr _ | VObj _ | VObjectId _ => true
  end.

(** [typeof v === 'object'] (true of [null] as well). *)
Definition typeof_object (v : value) : bool :=
  match v with
  | VNull | VArr _ | VObj _ | VObjectId _ => true
  | _ => false
  end.

Definition is_null (v : value) : bool :=
  match v with VNull => true | _ => false end.

Definition is_undefined (v : value) : bool :=
  match v with VUndefined => true | _ => false end.

Definition Array_isArray (v : value) : bool :=
  match v with VArr _ => true | _ => false end.

(** [v instanceof ObjectId]. *)
Definition instanceof_ObjectId (v : value) : bool :=
  match v with VObjectId _ => true | _ => false end.

(** [o[key]] on the own properties [o]. *)
Fixpoint lookup_prop (o : obj) (key : string) : value :=
  match o with
  | [] => VUndefined
  | (k, v) :: rest => if String.eqb k key then v else lookup_prop rest key
  end.

(** [o[key] = v]: an existing property keeps its place, a new one goes
    last. *)
Fixpoint set_prop (o : obj) (key : string) (v : value) : obj :=
  match o with
  | [] => [(key, v)]
  | (k, w) :: rest =>
      if String.eqb k key then (k, v) :: rest else (k, w) :: set_prop rest key v
  end.

(** [Object.keys(o)]. *)
Definition Object_keys (o : obj) : list string := map fst o.

(** [v.key] for any value that is not [null] or [undefined]. An
    [ObjectId] instance has the one own field [id]; arrays and
    primitives have none of the names used here. *)
Definition get (v : value) (key : string) : value :=
  match v with
  | VObj o => lookup_prop o key
  | VObjectId s => if String.eqb key "id" then VStr s else VUndefined
  | _ => VUndefined
  end.

(** [a === b]. *)
Definition strict_eq (a b : value) : bool :=
  match a, b with
  | VUndefined, VUndefined => true
  | VNull, VNull => true
  | VBool x, VBool y => Bool.eqb x y
  | VNum x, VNum y => x =? y
  | VStr x, VStr y => String.eqb x y
  | _, _ => false
  end.

(** [arr.includes(x)] ([SameValueZero], which is [===] away from [NaN]). *)
Definition includes (arr : value) (x : value) : bool :=
  match arr with
  | VArr l => existsb (fun e => strict_eq e x) l
  | _ => false
  end.

(** [String(v)]; an array joins its elements with commas, [null] and
    [undefined] elements giving the empty string; [ObjectId.toString]
    returns the identifier. *)
Fixpoint ToString (v : value) : string :=
  match v with
  | VUndefined => "undefined"
  | VNull => "null"
  | VBool true => "true"
  | VBool false => "false"
  | VNum n => pretty n
  | VStr s => s
  | VArr l =>
      (fix join (l : list value) : string :=
         match l with
         | [] => ""
         | x :: rest =>
             let sx := match x with
                       | VUndefined | VNull => ""
                       | _ => ToString x
                       end in
             match rest with
             | [] => sx
             | _ :: _ => sx ++ "," ++ join rest
             end
         end) l
  | VObj _ => "[object Object]"
  | VObjectId s => s
  end.

(** [ToPrimitive] with hint number: [valueOf] of an object is the object
    itself, so its [toString] decides. *)
Definition ToPrimitive (v : value) : value :=
  match v with
  | VArr _ | VObj _ | VObjectId _ => VStr (ToString v)
  | _ => v
  end.

Definition is_ws (a : ascii) : bool :=
  let n := nat_of_ascii a in
  (Nat.eqb n 32 || (Nat.leb 9 n && Nat.leb n 13))%bool.

Definition is_digit (a : ascii) : bool :=
  let n := nat_of_ascii a in (Nat.leb 48 n && Nat.leb n 57)%bool.

Fixpoint trim_start (s : string) : string :=
  match s with
  | String a rest => if is_ws a then trim_start rest else s
  | EmptyString => s
  end.

Fixpoint trim_end (s : string) : string :=
  match s with
  | EmptyString => EmptyString
  | String a rest =>
      match trim_end rest with
      | EmptyString => if is_ws a then EmptyString else String a EmptyString
      | t => String a t
      end
  end.

Fixpoint digits (s : string) (acc : Z) : option Z :=
  match s with
  | EmptyString => Some acc
  | String a rest =>
      if is_digit a
      then digits rest (10 * acc + Z.of_nat (nat_of_ascii a - 48))
      else None
  end.

Definition unsigned_literal (s : string) : option Z :=
  match s with
  | EmptyString => None
  | _ => digits s 0
  end.

(** The integers every double holds exactly. *)
Definition exact_integer (n : Z) : bool := Z.abs n <=? 2 ^ 53.

(** [StringToNumber] where the embedding has the number: white space
    is trimmed, the empty text is [0], and a decimal integer literal
    with an optional sign whose value a double holds exactly is that
    value. [None] is any other text (a fraction, an exponent, a
    hexadecimal literal, [Infinity], a larger integer, a text that is
    no number): what it converts to is not an integer of the embedding
    and is left to the engine. *)
Definition StringToNumber (s : string) : option Z :=
  let literal :=
    match trim_end (trim_start s) with
    | EmptyString => Some 0
    | String "+" rest => unsigned_literal rest
    | String "-" rest => Z.opp <$> unsigned_literal rest
    | t => unsigned_literal t
    end in
  match literal with
  | Some n => if exact_integer n then Some n else None
  | None => None
  end.

(** What [ToNumber] gives: an integer, [NaN], or a number outside the
    embedding (see [StringToNumber]). *)
Inductive numeric : Type :=
| Int (n : Z)
| NaN
| Outside.

(** [ToNumber] of a primitive. *)
Definition ToNumber (v : value) : numeric :=
  match v with
  | VUndefined => NaN
  | VNull => Int 0
  | VBool b => Int (if b then 1 else 0)
  | VNum n => Int n
  | VStr s => match StringToNumber s with Some n => Int n | None => Outside end
  | VArr _ | VObj _ | VObjectId _ => NaN
  end.

(** ** JSON texts *)

Inductive json : Type :=
| JNull
| JBool (b : bool)
| JNum (n : Z)
| JStr (s : string)
| JArr (elems : list json)
| JObj (members : list (string * json)).

Abbreviation jobj := (list (string * json)).

(** [JSON.stringify(v)]; [None] is the [undefined] it returns for
    [undefined]. An [undefined] element of an array is written [null], an
    [undefined] property is left out, and an [ObjectId] instance is
    written as the object of its one field [id]. *)
Fixpoint JSON_stringify (v : value) : option json :=
  match v with
  | VUndefined => None
  | VNull => Some JNull
  | VBool b => Some (JBool b)
  | VNum n => Some (JNum n)
  | VStr s => Some (JStr s)
  | VArr l =>
      Some (JArr ((fix elems (l : list value) : list json :=
                     match l with
                     | [] => []
                     | x :: rest =>
                         match JSON_stringify x with
                         | Some j => j :: elems rest
                         | None => JNull :: elems rest
                         end
                     end) l))
  | VObj o =>
      Some (JObj ((fix members (o : obj) : jobj :=
                     match o with
                     | [] => []
                     | (k, x) :: rest =>
                         match JSON_stringify x with
                         | Some j => (k, j) :: members rest
                         | None => members rest
                         end
                     end) o))
  | VObjectId s => Some (JObj [("id", JStr s)])
  end.

(** [JSON.parse] of a text. *)
Fixpoint JSON_parse (j : json) : value :=
  match j with
  | JNull => VNull
  | JBool b => VBool b
  | JNum n => VNum n
  | JStr s => VStr s
  | JArr l => VArr (map JSON_parse l)
  | JObj m =>
      VObj ((fix props (m : jobj) : obj :=
               match m with
               | [] => []
               | (k, x) :: rest => (k, JSON_parse x) :: props rest
               end) m)
  end.

(** Equality of two JSON texts. *)
Fixpoint json_eqb (a b : json) : bool :=
  match a, b with
  | JNull, JNull => true
  | JBool x, JBool y => Bool.eqb x y
  | JNum x, JNum y => x =? y
  | JStr x, JStr y => String.eqb x y
  | JArr l, JArr m =>
      (fix all2 (l m : list json) : bool :=
         match l, m with
         | [], [] => true
         | x :: l', y :: m' => json_eqb x y && all2 l' m'
         | _, _ => false
         end) l m
  | JObj l, JObj m =>
      (fix all2 (l : jobj) (m : jobj) : bool :=
         match l, m with
         | [], [] => true
         | (k, x) :: l', (k', y) :: m' =>
             String.eqb k k' && json_eqb x y && all2 l' m'
         | _, _ => false
         end) l m
  | _, _ => false
  end.

(** [JSON.stringify(a) === JSON.stringify(b)]: two [undefined] are equal. *)
Definition same_text (a b : option json) : bool :=
  match a, b with
  | None, None => true
  | Some x, Some y => json_eqb x y
  | _, _ => false
  end.

(** The text of one document and of a whole collection, and back. *)
Definition stringify_doc (d : obj) : jobj :=
  match JSON_stringify (VObj d) with
  | Some (JObj m) => m
  | _ => []
  end.

Definition parse_doc (m : jobj) : obj :=
  match JSON_parse (JObj m) with
  | VObj o => o
  | _ => []
  end.

Definition stringify_items (items : list obj) : list jobj := map stringify_doc items.
Definition parse_items (text : list jobj) : list obj := map parse_doc text.

(** ** Results of a call *)

Inductive exn : Type :=
| SyntaxError          (* new RegExp on a malformed pattern or flag *)
| QuotaExceededError.  (* localStorage.setItem past the quota *)

Inductive outcome (A : Type) : Type :=
| Return (a : A)
| Throw (e : exn).

Arguments Return {A} a.
Arguments Throw {A} e.

(** ** The browser *)

Record browser : Type := {
  (** [new RegExp(pattern, flags).test(subject)]; [None] when the
      constructor throws. *)
  RegExp_test : string -> string -> string -> option bool;
  (** Whether [localStorage.setItem(key, text)] fits the quota. *)
  setItem_fits : string -> list jobj -> bool;
  (** The [k]-th value of [Math.random().toString(36).substr(2, 9)]. *)
  Math_random : nat -> string;
  (** The relational comparison of two primitives of which one is a
      string that [StringToNumber] leaves to the engine; [None] is the
      undefined result a [NaN] gives. *)
  compare_outside : value -> value -> option comparison
}.

(** ** The store: [Frontend/lib/mongodb.ts] *)

(** The module state: [collectionCache], the entries of [localStorage]
    (each key of the store holds the text of an array of documents) and
    the number of draws taken from [Math.random]. *)
Record store : Type := {
  collectionCache : gmap string (list obj);
  localStorage : gmap string (list jobj);
  draws : nat
}.

(** What the four mutating calls return. *)
Record insert_result : Type := { insertedId : value; ins_acknowledged : bool }.
Record insert_many_result : Type :=
  { insertedCount : nat; insertedIds : list value; many_acknowledged : bool }.
Record update_result : Type :=
  { matchedCount : nat; modifiedCount : nat; upd_acknowledged : bool }.
Record delete_result : Type := { deletedCount : nat; del_acknowledged : bool }.

Section Store.

Context (B : browser).

(** The relational comparison behind [<], [<=], [>], [>=]: both sides go
    through [ToPrimitive]; two strings compare by code units, anything
    else by [ToNumber]: [None], the undefined result, as soon as one
    side is [NaN], the order of the integers for two integers, and the
    engine's answer when a side is a number outside the embedding. *)
Definition js_compare (x y : value) : option comparison :=
  match ToPrimitive x, ToPrimitive y with
  | VStr a, VStr b => Some (String.compare a b)
  | px, py =>
      match ToNumber px, ToNumber py with
      | NaN, _ | _, NaN => None
      | Int a, Int b => Some (a ?= b)
      | _, _ => compare_outside B px py
      end
  end.

Definition js_gt (x y : value) : bool :=
  match js_compare x y with Some Gt => true | _ => false end.
Definition js_ge (x y : value) : bool :=
  match js_compare x y with Some Gt | Some Eq => true | _ => false end.
Definition js_lt (x y : value) : bool :=
  match js_compare x y with Some Lt => true | _ => false end.
Definition js_le (x y : value) : bool :=
  match js_compare x y with Some Lt | Some Eq => true | _ => false end.

(** [deepCompare(itemValue, queryValue)]: the first operator that is
    present decides and returns. *)
Definition deepCompare (itemValue queryValue : value) : outcome bool :=
  if truthy queryValue && typeof_object queryValue then
    if truthy (get queryValue "$in") && Array_isArray (get queryValue "$in") then
      Return (includes (get queryValue "$in") itemValue)
    else if negb (is_undefined (get queryValue "$gt")) then
      Return (js_gt itemValue (get queryValue "$gt"))
    else if negb (is_undefined (get queryValue "$gte")) then
      Return (js_ge itemValue (get queryValue "$gte"))
    else if negb (is_undefined (get queryValue "$lt")) then
      Return (js_lt itemValue (get queryValue "$lt"))
    else if negb (is_undefined (get queryValue "$lte")) then
      Return (js_le itemValue (get queryValue "$lte"))
    else if negb (is_undefined (get queryValue "$ne")) then
      Return (negb (strict_eq itemValue (get queryValue "$ne")))
    else if truthy (get queryValue "$regex") then
      let flags :=
        if truthy (get queryValue "$options") then get queryValue "$options"
        else VStr "" in
      match RegExp_test B (ToString (get queryValue "$regex")) (ToString flags)
                        (ToString itemValue) with
      | Some b => Return b
      | None => Throw SyntaxError
      end
    else Return (same_text (JSON_stringify itemValue) (JSON_stringify queryValue))
  else Return (same_text (JSON_stringify itemValue) (JSON_stringify queryValue)).

(** [keys.every(p)], stopping at the first key that fails or throws. *)
Fixpoint every (p : string -> outcome bool) (keys : list string) : outcome bool :=
  match keys with
  | [] => Return true
  | k :: rest =>
      match p k with
      | Return true => every p rest
      | Return false => Return false
      | Throw e => Throw e
      end
  end.

(** The callback of [Object.keys(query).every(key => ...)]. *)
Definition field_matches (query item : obj) (key : string) : outcome bool :=
  if typeof_object (lookup_prop query key) && negb (is_null (lookup_prop query key))
  then deepCompare (lookup_prop item key) (lookup_prop query key)
  else Return (strict_eq (lookup_prop item key) (lookup_prop query key)).

Definition matches_query (query item : obj) : outcome bool :=
  every (field_matches query item) (Object_keys query).

(** [x instanceof ObjectId ? x.toString() : x]. *)
Definition id_of (x : value) : value :=
  if instanceof_ObjectId x then VStr (ToString x) else x.

(** The callback of [find] and [findIndex] in [findOne], [updateOne] and
    [deleteOne]. *)
Definition selects (query item : obj) : outcome bool :=
  if truthy (lookup_prop query "_id") then
    Return (strict_eq (id_of (lookup_prop item "_id")) (id_of (lookup_prop query "_id")))
  else matches_query query item.

(** [items.findIndex(p)]; [None] is [-1]. *)
Fixpoint findIndex (p : obj -> outcome bool) (items : list obj) : outcome (option nat) :=
  match items with
  | [] => Return None
  | d :: rest =>
      match p d with
      | Return true => Return (Some 0%nat)
      | Return false =>
          match findIndex p rest with
          | Return (Some i) => Return (Some (S i))
          | r => r
          end
      | Throw e => Throw e
      end
  end.

(** [items.find(p) || null]. *)
Fixpoint find_first (p : obj -> outcome bool) (items : list obj) : outcome (option obj) :=
  match items with
  | [] => Return None
  | d :: rest =>
      match p d with
      | Return true => Return (Some d)
      | Return false => find_first p rest
      | Throw e => Throw e
      end
  end.

(** [items.filter(p)]. *)
Fixpoint filter_items (p : obj -> outcome bool) (items : list obj) : outcome (list obj) :=
  match items with
  | [] => Return []
  | d :: rest =>
      match p d with
      | Return b =>
          match filter_items p rest with
          | Return l => Return (if b then d :: l else l)
          | Throw e => Throw e
          end
      | Throw e => Throw e
      end
  end.

Definition storage_key (name : string) : string := "mock_" ++ name.

(** [storedData ? JSON.parse(storedData) : []]. *)
Definition stored (st : store) (name : string) : list obj :=
  match localStorage st !! storage_key name with
  | Some text => parse_items text
  | None => []
  end.

(** The read used by [find], [findOne] and [countDocuments]: the cache
    entry when there is one, else the stored array, which becomes the
    entry. *)
Definition load (name : string) (st : store) : list obj * store :=
  match collectionCache st !! name with
  | Some items => (items, st)
  | None =>
      let data := stored st name in
      (data, {| collectionCache := <[name := data]> (collectionCache st);
                localStorage := localStorage st;
                draws := draws st |})
  end.

(** The read used by the mutating calls: a copy of the entry, else the
    stored array; the cache is not touched. *)
Definition current (name : string) (st : store) : list obj :=
  match collectionCache st !! name with
  | Some items => items
  | None => stored st name
  end.

(** [collectionCache[name] = items; localStorage.setItem(key,
    JSON.stringify(items))], in that order. *)
Definition commit (name : string) (items : list obj) (st : store) : outcome unit * store :=
  let cached := {| collectionCache := <[name := items]> (collectionCache st);
                   localStorage := localStorage st;
                   draws := draws st |} in
  if setItem_fits B (storage_key name) (stringify_items items) then
    (Return tt,
     {| collectionCache := collectionCache cached;
        localStorage := <[storage_key name := stringify_items items]> (localStorage st);
        draws := draws st |})
  else (Throw QuotaExceededError, cached).

(** [collection(name).find(query).sort(sortOptions).toArray()]. *)
Definition find (name : string) (query sortOptions : obj) (st : store)
  : outcome (list obj) * store :=
  let '(items, st') := load name st in (Return items, st').

(** [collection(name).findOne(query)]; [None] is [null]. *)
Definition findOne (name : string) (query : obj) (st : store)
  : outcome (option obj) * store :=
  let '(items, st') := load name st in
  (find_first (selects query) items, st').

(** [collection(name).countDocuments(query)]. *)
Definition countDocuments (name : string) (query : obj) (st : store)
  : outcome nat * store :=
  let '(items, st') := load name st in
  match Object_keys query with
  | [] => (Return (length items), st')
  | _ :: _ =>
      match filter_items (matches_query query) items with
      | Return l => (Return (length l), st')
      | Throw e => (Throw e, st')
      end
  end.

(** [new ObjectId().toString()]: ['id_'] and one draw. *)
Definition _generateId (st : store) : string * store :=
  ("id_" ++ Math_random B (draws st),
   {| collectionCache := collectionCache st;
      localStorage := localStorage st;
      draws := S (draws st) |}).

(** What [insertOne] and [insertMany] do to a document before they push
    it: an identifier when [_id] is falsy, [createdAt] when it is falsy,
    [updatedAt] always. [now] is [new Date().toISOString()]. *)
Definition stamp (doc : obj) (now : string) (st : store) : obj * store :=
  let '(doc1, st1) :=
    if negb (truthy (lookup_prop doc "_id")) then
      let '(id, st1) := _generateId st in (set_prop doc "_id" (VStr id), st1)
    else (doc, st) in
  let created :=
    if truthy (lookup_prop doc1 "createdAt") then lookup_prop doc1 "createdAt"
    else VStr now in
  (set_prop (set_prop doc1 "createdAt" created) "updatedAt" (VStr now), st1).

Fixpoint stamp_all (docs : list obj) (now : string) (st : store) : list obj * store :=
  match docs with
  | [] => ([], st)
  | d :: rest =>
      let '(d', st1) := stamp d now st in
      let '(rest', st2) := stamp_all rest now st1 in
      (d' :: rest', st2)
  end.

(** [collection(name).insertOne(doc)]. *)
Definition insertOne (name : string) (doc : obj) (now : string) (st : store)
  : outcome insert_result * store :=
  let '(doc', st1) := stamp doc now st in
  let items := (current name st1 ++ [doc'])%list in
  match commit name items st1 with
  | (Return _, st2) =>
      (Return {| insertedId := lookup_prop doc' "_id"; ins_acknowledged := true |}, st2)
  | (Throw e, st2) => (Throw e, st2)
  end.

(** [collection(name).insertMany(docs)]; the documents are distinct
    objects. *)
Definition insertMany (name : string) (docs : list obj) (now : string) (st : store)
  : outcome insert_many_result * store :=
  let existing := current name st in
  let '(docs', st1) := stamp_all docs now st in
  let items := (existing ++ docs')%list in
  match commit name items st1 with
  | (Return _, st2) =>
      (Return {| insertedCount := length docs;
                 insertedIds := map (fun d => lookup_prop d "_id") docs';
                 many_acknowledged := true |}, st2)
  | (Throw e, st2) => (Throw e, st2)
  end.

(** [Object.keys(set).forEach(key => { doc[key] = set[key] })]. *)
Definition assign_all (doc set : obj) : obj :=
  fold_left (fun d key => set_prop d key (lookup_prop set key)) (Object_keys set) doc.

(** The update of the selected document: the properties of [update.$set]
    when it is there, then [updatedAt]. *)
Definition apply_update (set : option obj) (now : string) (doc : obj) : obj :=
  let doc1 := match set with Some s => assign_all doc s | None => doc end in
  set_prop doc1 "updatedAt" (VStr now).

(** [collection(name).updateOne(query, update)]; [set] is the object
    [update.$set], [None] when the update has none. *)
Definition updateOne (name : string) (query : obj) (set : option obj) (now : string)
  (st : store) : outcome update_result * store :=
  let items := current name st in
  match findIndex (selects query) items with
  | Throw e => (Throw e, st)
  | Return None =>
      (Return {| matchedCount := 0; modifiedCount := 0; upd_acknowledged := true |}, st)
  | Return (Some index) =>
      match commit name (alter (apply_update set now) index items) st with
      | (Return _, st') =>
          (Return {| matchedCount := 1; modifiedCount := 1; upd_acknowledged := true |}, st')
      | (Throw e, st') => (Throw e, st')
      end
  end.

(** [collection(name).deleteOne(query)]. *)
Definition deleteOne (name : string) (query : obj) (st : store)
  : outcome delete_result * store :=
  let items := current name st in
  match findIndex (selects query) items with
  | Throw e => (Throw e, st)
  | Return None => (Return {| deletedCount := 0; del_acknowledged := true |}, st)
  | Return (Some index) =>
      match commit name (delete index items) st with
      | (Return _, st') => (Return {| deletedCount := 1; del_acknowledged := true |}, st')
      | (Throw e, st') => (Throw e, st')
      end
  end.

(** [invalidateCache(collectionName)] of the store. *)
Definition invalidateCache (collectionName : option string) (st : store) : store :=
  {| collectionCache :=
       match collectionName with
       | Some name =>
           if negb (String.eqb name "") then delete name (collectionCache st)
           else fold_left (fun m key => delete key m)
                          (map fst (map_to_list (collectionCache st))) (collectionCache st)
       | None => fold_left (fun m key => delete key m)
                           (map fst (map_to_list (collectionCache st))) (collectionCache st)
       end;
     localStorage := localStorage st;
     draws := draws st |}.



End Store.

(** ** The result cache: [lib/services.ts] *)

Record cache_entry : Type := { data : value; timestamp : Z }.

(** Cache expiration time (5 minutes), in milliseconds. *)
Definition CACHE_EXPIRATION : Z := 5 * 60 * 1000.

(** [(now - entry.timestamp) < ttl]; the services call it with
    [CACHE_EXPIRATION]. *)
Definition is_fresh (now : Z) (e : cache_entry) (ttl : Z) : bool :=
  now - timestamp e <? ttl.

(** The state of the service module: the store it talks to and
    [serviceCache]. *)
Record app : Type := {
  db : store;
  serviceCache : gmap string cache_entry
}.

(** [key.includes('*')]. *)
Fixpoint includes_star (key : string) : bool :=
  match key with
  | EmptyString => false
  | String a rest => if Ascii.eqb a "*" then true else includes_star rest
  end.

(** [key.replace('*', '')]: the first star goes. *)
Fixpoint replace_star (key : string) : string :=
  match key with
  | EmptyString => EmptyString
  | String a rest => if Ascii.eqb a "*" then rest else String a (replace_star rest)
  end.

(** [Object.keys(cache).forEach(k => { if (p(k)) delete cache[k] })]. *)
Definition delete_where (p : string -> bool) (cache : gmap string cache_entry)
  : gmap string cache_entry :=
  fold_left (fun m k => if p k then delete k m else m)
            (map fst (map_to_list cache)) cache.

(** [invalidateServiceCache(key)]; [None] is the call without argument. *)
Definition invalidateServiceCache (key : option string)
  (cache : gmap string cache_entry) : gmap string cache_entry :=
  match key with
  | Some k =>
      if negb (String.eqb k "") then
        if includes_star k then
          delete_where (fun cacheKey => String.prefix (replace_star k) cacheKey) cache
        else delete k cache
      else delete_where (fun _ => true) cache
  | None => delete_where (fun _ => true) cache
  end.

(** [{ ...design, id: design._id ? design._id.toString() : design._id }]. *)
Definition with_id (design : obj) : value :=
  let _id := lookup_prop design "_id" in
  VObj (set_prop design "id" (if truthy _id then VStr (ToString _id) else _id)).

(** [cachedData && (Date.now() - cachedData.timestamp) < ttl], and then
    [cachedData.data]: the lookup every cached service starts with. *)
Definition cached (cache : gmap string cache_entry) (key : string) (now ttl : Z)
  : option value :=
  match cache !! key with
  | Some cachedData => if is_fresh now cachedData ttl then Some (data cachedData) else None
  | None => None
  end.

(** What [designService.getAll] does on a miss: read the collection,
    add [id] to every design and store the result under the key with
    the time [now2]. *)
Definition fetch_designs (now2 : Z) (a : app) : outcome value * app :=
  match find "designs" [] [("createdAt", VNum (-1))] (db a) with
  | (Return designs, db') =>
      let formattedDesigns := VArr (map with_id designs) in
      (Return formattedDesigns,
       {| db := db';
          serviceCache :=
            <["designs_getAll" := {| data := formattedDesigns; timestamp := now2 |}]>
              (serviceCache a) |})
  | (Throw e, db') => (Throw e, {| db := db'; serviceCache := serviceCache a |})
  end.

(** The function [designService.getAll] hands to [withErrorHandling].
    [now1] and [now2] are the two readings of [Date.now()]. *)
Definition getAll_body (now1 now2 : Z) (a : app) : outcome value * app :=
  match cached (serviceCache a) "designs_getAll" now1 CACHE_EXPIRATION with
  | Some v => (Return v, a)
  | None => fetch_designs now2 a
  end.

(** [designService.getAll()]: [result.data || []], where
    [withErrorHandling] turns a throw into [data: null]. *)
Definition getAll (now1 now2 : Z) (a : app) : value * app :=
  match getAll_body now1 now2 a with
  | (Return v, a') => (if truthy v then v else VArr [], a')
  | (Throw _, a') => (VArr [], a')
  end.

(** ** Sample browsers and stores *)

(** A browser whose storage accepts every write when [fits] is [true]
    and none when it is [false]. Its regular-expression engine reads a
    pattern as literal text and it takes every number outside the
    embedding for [NaN]; the examples below use neither [$regex] nor
    such a number. *)
Definition sample_browser (fits : bool) : browser :=
  {| RegExp_test := fun pattern _ subject =>
       Some (match String.index 0 pattern subject with Some _ => true | None => false end);
     setItem_fits := fun _ _ => fits;
     Math_random := fun k => pretty k;
     compare_outside := fun _ _ => None |}.

Definition empty_store : store :=
  {| collectionCache := ∅; localStorage := ∅; draws := 0 |}.

(** A page that has just been loaded: two designs in [localStorage],
    nothing cached. *)
Definition two_designs : store :=
  {| collectionCache := ∅;
     localStorage :=
       {[ "mock_designs" :=
            [ [("_id", JStr "id_a"); ("category", JStr "Kitchen")];
              [("_id", JStr "id_b"); ("category", JStr "Living Room")] ] ]};
     draws := 0 |}.

(** The filter value of the range example, [{$gte: 18, $lte: 65}]. *)
Definition adult_range : value := VObj [("$gte", VNum 18); ("$lte", VNum 65)].

(** The operator keys [deepCompare] knows. *)
Definition recognised : list string :=
  ["$in"; "$gt"; "$gte"; "$lt"; "$lte"; "$ne"; "$regex"].

Definition no_recognised_operator (o : obj) : bool :=
  forallb (fun k => is_undefined (lookup_prop o k)) recognised.

(** A collection whose one document has the age 100. *)
Definition one_centenarian : store :=
  {| collectionCache := ∅;
     localStorage := {[ "mock_users" := [ [("_id", JStr "id_c"); ("age", JNum 100)] ] ]};
     draws := 0 |}.

(** The filter [{category: 'Kitchen'}] of [designService.getByCategory]. *)
Definition kitchen_filter : obj := [("category", VStr "Kitchen")].

(** The text the backing medium holds for a collection, the empty array
    when it holds none (as the store reads it). *)
Definition persisted (st : store) (name : string) : list jobj :=
  match localStorage st !! storage_key name with
  | Some text => text
  | None => []
  end.

(** The cache entry of the collection, when there is one, is the array
    whose text the backing medium holds. *)
Definition consistent (st : store) (name : string) : Prop :=
  forall items, collectionCache st !! name = Some items ->
                stringify_items items = persisted st name.

(** A collection whose one document has the numeric identifier [0], and
    one whose document has the identifier ['5']. *)
Definition numbered_users : store :=
  {| collectionCache := ∅;
     localStorage := {[ "mock_users" := [ [("_id", JNum 0); ("name", JStr "Asha")] ] ]};
     draws := 0 |}.

Definition string_id_users : store :=
  {| collectionCache := ∅;
     localStorage := {[ "mock_users" := [ [("_id", JStr "5"); ("name", JStr "Asha")] ] ]};
     draws := 0 |}.

Definition entry (v : value) (t : Z) : cache_entry := {| data := v; timestamp := t |}.

(** The result cache of the wildcard example. *)
Definition design_cache : gmap string cache_entry :=
  {[ "design_1" := entry (VStr "A") 0;
     "design_2" := entry (VStr "B") 0;
     "designs_getAll" := entry (VStr "C") 0 ]}.

(** The service state in which [designs_getAll] was cached at the time
    [1000] with the value [v]. *)
Definition cached_app (v : value) : app :=
  {| db := two_designs; serviceCache := {[ "designs_getAll" := entry v 1000 ]} |}.

(** ** More of the store and of the services *)

(** [ObjectId.equals(otherId)]: [this.id === otherId.toString()]. *)
Definition ObjectId_equals (this : string) (otherId : value) : bool :=
  String.eqb this (ToString otherId).

(** [fromObjectId(doc)]; [None] is a missing document and the [null]
    returned for it. *)
Definition fromObjectId (doc : option obj) : option obj :=
  match doc with
  | None => None
  | Some d =>
      let _id := lookup_prop d "_id" in
      Some (set_prop d "_id" (if truthy _id then VStr (ToString _id) else _id))
  end.

(** [fromObjectIdArray(docs)]. *)
Definition fromObjectIdArray (docs : option (list (option obj))) : list (option obj) :=
  match docs with
  | None => []
  | Some l => map fromObjectId l
  end.

(** The values [JSON.parse(JSON.stringify(v))] gives back as they were:
    no [undefined] and no [ObjectId] instance anywhere inside. *)
Fixpoint plain (v : value) : bool :=
  match v with
  | VUndefined | VObjectId _ => false
  | VNull | VBool _ | VNum _ | VStr _ => true
  | VArr l =>
      (fix all (l : list value) : bool :=
         match l with
         | [] => true
         | x :: rest => plain x && all rest
         end) l
  | VObj o =>
      (fix all (o : obj) : bool :=
         match o with
         | [] => true
         | (_, x) :: rest => plain x && all rest
         end) o
  end.

Definition plain_doc (d : obj) : bool := plain (VObj d).

(** The waits of [withRetry]: the first is the delay it was given, each
    next one is [Math.min(delay * 2, maxDelay)]. *)
Fixpoint backoff (delay maxDelay : Z) (n : nat) : list Z :=
  match n with
  | O => []
  | S n' => delay :: backoff (Z.min (delay * 2) maxDelay) maxDelay n'
  end.

Section Retry.

Context {A E : Type}.

(** The loop of [withRetry] from the call number [attempt] on, with
    [left = maxRetries - attempt]. [fn k] is what the [k]-th call of
    the function does: return ([inl]) or throw ([inr]). The result
    comes with the delays waited, in order. *)
Fixpoint retry_from (fn : nat -> A + E) (attempt left : nat) (delay maxDelay : Z)
  : (A + E) * list Z :=
  match fn attempt with
  | inl a => (inl a, [])
  | inr e =>
      match left with
      | O => (inr e, [])
      | S left' =>
          let '(r, waits) :=
            retry_from fn (S attempt) left' (Z.min (delay * 2) maxDelay) maxDelay in
          (r, delay :: waits)
      end
  end.

(** [withRetry(fn, maxRetries, initialDelay, maxDelay)] for an integer
    [maxRetries]; [inr None] is the [undefined] thrown when the loop
    never ran. *)
Definition withRetry (fn : nat -> A + E) (maxRetries initialDelay maxDelay : Z)
  : (A + option E) * list Z :=
  if maxRetries <? 0 then (inr None, [])
  else
    match retry_from fn 0 (Z.to_nat maxRetries) initialDelay maxDelay with
    | (inl a, waits) => (inl a, waits)
    | (inr e, waits) => (inr (Some e), waits)
    end.

End Retry.

(** What [authService.updateProfile] returns. *)
Record profile_result : Type := { success : bool; error : option string }.

(** [if (updates.key) profileUpdates.key = updates.key]. *)
Definition copy_truthy (updates : obj) (key : string) (profileUpdates : obj) : obj :=
  if truthy (lookup_prop updates key)
  then set_prop profileUpdates key (lookup_prop updates key)
  else profileUpdates.

(** The object [profileUpdates] of [authService.updateProfile]. *)
Definition profileUpdates (updates : obj) (now : string) : obj :=
  copy_truthy updates "avatar"
    (copy_truthy updates "website"
       (copy_truthy updates "location"
          (copy_truthy updates "phone"
             (copy_truthy updates "bio"
                (copy_truthy updates "name" [("updatedAt", VStr now)]))))).

Section MoreServices.

Context (B : browser).

(** [new ObjectId(id)]: [this.id = id || this._generateId()]. *)
Definition new_ObjectId (id : option string) (st : store) : value * store :=
  match id with
  | Some s =>
      if negb (String.eqb s "") then (VObjectId s, st)
      else let '(g, st') := _generateId B st in (VObjectId g, st')
  | None => let '(g, st') := _generateId B st in (VObjectId g, st')
  end.

(** [toObjectId(id)]. *)
Definition toObjectId (id : string) (st : store) : value * store :=
  new_ObjectId (Some id) st.

(** The function [designService.getById] hands to [withErrorHandling];
    [VNull] is the [null] of a design that was not found. *)
Definition getById_body (id : string) (now1 now2 : Z) (a : app) : outcome value * app :=
  match cached (serviceCache a) ("design_" ++ id) now1 CACHE_EXPIRATION with
  | Some v => (Return v, a)
  | None =>
      let '(oid, db1) := toObjectId id (db a) in
      match findOne B "designs" [("_id", oid)] db1 with
      | (Return (Some design), db2) =>
          let formattedDesign := with_id design in
          (Return formattedDesign,
           {| db := db2;
              serviceCache :=
                <["design_" ++ id := {| data := formattedDesign; timestamp := now2 |}]>
                  (serviceCache a) |})
      | (Return None, db2) => (Return VNull, {| db := db2; serviceCache := serviceCache a |})
      | (Throw e, db2) => (Throw e, {| db := db2; serviceCache := serviceCache a |})
      end
  end.

(** [designService.getById(id)]: [result.data], [null] after a throw. *)
Definition getById (id : string) (now1 now2 : Z) (a : app) : value * app :=
  match getById_body id now1 now2 a with
  | (Return v, a') => (v, a')
  | (Throw _, a') => (VNull, a')
  end.

(** [{ ...user, _id: user._id ? user._id.toString() : user._id,
      password: undefined }]. *)
Definition formattedUser (user : obj) : value :=
  let _id := lookup_prop user "_id" in
  VObj (set_prop
          (set_prop user "_id" (if truthy _id then VStr (ToString _id) else _id))
          "password" VUndefined).

(** [userService.getById(id)]; [VNull] is the [null] of a user that was
    not found and of a throw. *)
Definition userService_getById (id : string) (now1 now2 : Z) (a : app) : value * app :=
  match cached (serviceCache a) ("user_" ++ id) now1 CACHE_EXPIRATION with
  | Some v => (v, a)
  | None =>
      let '(objectId, db1) := toObjectId id (db a) in
      match findOne B "users" [("_id", objectId)] db1 with
      | (Return (Some user), db2) =>
          (formattedUser user,
           {| db := db2;
              serviceCache :=
                <["user_" ++ id := {| data := formattedUser user; timestamp := now2 |}]>
                  (serviceCache a) |})
      | (Return None, db2) => (VNull, {| db := db2; serviceCache := serviceCache a |})
      | (Throw _, db2) => (VNull, {| db := db2; serviceCache := serviceCache a |})
      end
  end.

(** [authService.updateProfile(userId, updates)]; [now1] is the time
    read by the service, [now2] the one read by [updateOne]. *)
Definition updateProfile (userId : string) (updates : obj) (now1 now2 : string)
  (st : store) : profile_result * store :=
  let '(oid, st1) := toObjectId userId st in
  match updateOne B "users" [("_id", oid)] (Some (profileUpdates updates now1)) now2 st1 with
  | (Return result, st2) =>
      if Nat.eqb (matchedCount result) 0
      then ({| success := false; error := Some "User not found" |}, st2)
      else ({| success := true; error := None |}, st2)
  | (Throw _, st2) =>
      ({| success := false; error := Some "An unexpected error occurred" |}, st2)
  end.

(** The filter [{ userId, designId: toObjectId(designId) }] of the
    favourites. *)
Definition favorite_filter (userId designId : string) (st : store) : obj * store :=
  let '(oid, st1) := toObjectId designId st in
  ([("userId", VStr userId); ("designId", oid)], st1).

(** [favoriteService.checkFavorite(userId, designId)]. *)
Definition checkFavorite (userId designId : string) (st : store) : bool * store :=
  let '(query, st1) := favorite_filter userId designId st in
  match findOne B "favorites" query st1 with
  | (Return (Some _), st2) => (true, st2)
  | (Return None, st2) => (false, st2)
  | (Throw _, st2) => (false, st2)
  end.

(** [{ ...doc, _id: id.toString() }]; [None] is the [TypeError] of
    [toString] on [null] or [undefined]. *)
Definition with_string_id (doc : obj) (id : value) : option obj :=
  match id with
  | VUndefined | VNull => None
  | _ => Some (set_prop doc "_id" (VStr (ToString id)))
  end.

(** [favoriteService.addFavorite(userId, designId)]; [None] is [null].
    [now1] is the time read by the service, [now2] the one read by
    [insertOne], which stamps the very object the service returns a
    copy of. *)
Definition addFavorite (userId designId : string) (now1 now2 : string) (st : store)
  : option obj * store :=
  let '(query, st1) := favorite_filter userId designId st in
  match findOne B "favorites" query st1 with
  | (Return (Some existingFavorite), st2) =>
      (with_string_id existingFavorite (lookup_prop existingFavorite "_id"), st2)
  | (Return None, st2) =>
      let '(oid, st3) := toObjectId designId st2 in
      let newFavorite :=
        [("userId", VStr userId); ("designId", oid); ("createdAt", VStr now1)] in
      match insertOne B "favorites" newFavorite now2 st3 with
      | (Return result, st4) =>
          (with_string_id (fst (stamp B newFavorite now2 st3)) (insertedId result), st4)
      | (Throw _, st4) => (None, st4)
      end
  | (Throw _, st2) => (None, st2)
  end.


End MoreServices.

(** The fields [authService.updateProfile] copies, and whether it
    copies the field [k] of [updates]. *)
Definition profile_fields : list string :=
  ["name"; "bio"; "phone"; "location"; "website"; "avatar"].

Definition copied (updates : obj) (k : string) : bool :=
  existsb (String.eqb k) profile_fields && truthy (lookup_prop updates k).


Definition refused_insert : store :=
  snd (insertOne (sample_browser false) "designs" [("title", VStr "Loft")]
         "2024-05-01T10:00:00.000Z" empty_store).

(** A filter whose [_id] is that of the second design and whose
    [category] is that of the first. *)
Definition mixed_filter : obj := [("_id", VStr "id_b"); ("category", VStr "Kitchen")].

(** * Properties *)

(** ** Objects *)

Lemma lookup_set_prop (o : obj) (k k' : string) (v : value) :
  lookup_prop (set_prop o k v) k' = if String.eqb k k' then v else lookup_prop o k'.
Proof.
  induction o as [|[k0 w] o IH]; simpl.
  - destruct (String.eqb k k'); reflexivity.
  - destruct (String.eqb_spec k0 k) as [->|Hne]; simpl.
    + destruct (String.eqb k k'); reflexivity.
    + rewrite IH. destruct (String.eqb_spec k0 k') as [->|Hne']; [|reflexivity].
      destruct (String.eqb_spec k k'); [congruence|reflexivity].
Qed.

Lemma lookup_assign_keys (set : obj) (keys : list string) (doc : obj) (k : string) :
  lookup_prop (fold_left (fun d key => set_prop d key (lookup_prop set key)) keys doc) k
  = if existsb (String.eqb k) keys then lookup_prop set k else lookup_prop doc k.
Proof.
  revert doc; induction keys as [|key keys IH]; intros doc; simpl; [reflexivity|].
  rewrite IH, lookup_set_prop.
  destruct (existsb (String.eqb k) keys); simpl.
  - rewrite orb_true_r. reflexivity.
  - rewrite orb_false_r.
    destruct (String.eqb_spec key k) as [->|Hne].
    + rewrite String.eqb_refl. reflexivity.
    + destruct (String.eqb_spec k key); [congruence|reflexivity].
Qed.

(** What the updated document holds under each key. *)
Lemma lookup_apply_update (set : option obj) (now : string) (doc : obj) (k : string) :
  lookup_prop (apply_update set now doc) k
  = if String.eqb "updatedAt" k then VStr now
    else match set with
         | Some s => if existsb (String.eqb k) (Object_keys s)
                     then lookup_prop s k else lookup_prop doc k
         | None => lookup_prop doc k
         end.
Proof.
  unfold apply_update. rewrite lookup_set_prop.
  destruct (String.eqb "updatedAt" k); [reflexivity|].
  destruct set as [s|]; [|reflexivity].
  unfold assign_all. apply lookup_assign_keys.
Qed.

(** ** The predicate matcher *)

(** C2. On the range filter [{$gte: 18, $lte: 65}] the matcher returns
    at [$gte] and never looks at [$lte]: a number matches exactly when
    it is at least 18. The two examples of the specification come out as
    it says (30 matches, 10 does not), but 100, which is above the upper
    bound, matches as well, and [findOne] with the filter
    [{age: {$gte: 18, $lte: 65}}] returns the document whose age is 100:
    the operators present are not conjoined. *)
Theorem range_filter_upper_bound_ignored (B : browser) :
  (forall n : Z, deepCompare B (VNum n) adult_range = Return (n >=? 18)) /\
  deepCompare B (VNum 30) adult_range = Return true /\
  deepCompare B (VNum 10) adult_range = Return false /\
  deepCompare B (VNum 100) adult_range = Return true /\
  fst (findOne B "users" [("age", adult_range)] one_centenarian)
  = Return (Some [("_id", VStr "id_c"); ("age", VNum 100)]).
Proof.
  assert (H : forall n : Z, deepCompare B (VNum n) adult_range = Return (n >=? 18)).
  { intros n. unfold deepCompare, adult_range; cbn.
    unfold js_ge, js_compare; cbn. unfold Z.geb.
    destruct (n ?= 18); reflexivity. }
  split; [exact H|]. rewrite !H. repeat split.
Qed.

(** C3, counterexample. The operator key [$foo] is not one of the
    recognised ones, and the matcher answers [false], the answer of a
    field that does not match; nothing is thrown. *)
Lemma unknown_operator_returns_false :
  deepCompare (sample_browser true) (VNum 5) (VObj [("$foo", VNum 1)]) = Return false.
Proof. reflexivity. Qed.

(** C3, amended. A filter value whose keys are all unrecognised is not
    rejected: it is compared with the field by the equality of their
    JSON texts, and the matcher returns that boolean. *)
Theorem unknown_operator_compared_as_text (B : browser) (itemValue : value) (o : obj) :
  no_recognised_operator o = true ->
  deepCompare B itemValue (VObj o)
  = Return (same_text (JSON_stringify itemValue) (JSON_stringify (VObj o))).
Proof.
  unfold no_recognised_operator, recognised. cbn [forallb].
  rewrite !andb_true_iff. intros (Hin & Hgt & Hge & Hlt & Hle & Hne & Hre & _).
  unfold deepCompare. cbn [truthy typeof_object andb get].
  destruct (lookup_prop o "$in"); try discriminate.
  destruct (lookup_prop o "$gt"); try discriminate.
  destruct (lookup_prop o "$gte"); try discriminate.
  destruct (lookup_prop o "$lt"); try discriminate.
  destruct (lookup_prop o "$lte"); try discriminate.
  destruct (lookup_prop o "$ne"); try discriminate.
  destruct (lookup_prop o "$regex"); try discriminate.
  reflexivity.
Qed.

Lemma unknown_operator_compared_as_text_witness :
  no_recognised_operator [("$foo", VNum 1)] = true /\
  deepCompare (sample_browser true) (VObj [("$foo", VNum 1)]) (VObj [("$foo", VNum 1)])
  = Return true.
Proof.
  split; [reflexivity|].
  exact (unknown_operator_compared_as_text (sample_browser true)
           (VObj [("$foo", VNum 1)]) [("$foo", VNum 1)] eq_refl).
Defined.




(** [json_eqb] decides the equality of two texts. *)
Lemma json_eqb_eq (a b : json) : json_eqb a b = true <-> a = b.
Proof.
  revert a b. fix IH 1.
  intros [|x|x|x|l|l] [|y|y|y|m|m]; simpl;
    try (clear IH; split; intros H; (discriminate || reflexivity)).
  - clear IH. rewrite Bool.eqb_true_iff. split; intros H; congruence.
  - clear IH. rewrite Z.eqb_eq. split; intros H; congruence.
  - clear IH. rewrite String.eqb_eq. split; intros H; congruence.
  - assert (H : forall m, (fix all2 (l m : list json) : bool :=
                 match l, m with
                 | [], [] => true
                 | x :: l', y :: m' => json_eqb x y && all2 l' m'
                 | _, _ => false
                 end) l m = true <-> l = m).
    { induction l as [|x l IHl]; intros [|y m']; simpl;
        try (split; intros H; (discriminate || reflexivity)).
      rewrite andb_true_iff, IH, IHl. split; [intros [-> ->]; reflexivity|].
      intros H; injection H; auto. }
    rewrite H. split; intros E; congruence.
  - assert (H : forall m, (fix all2 (l m : jobj) : bool :=
                 match l, m with
                 | [], [] => true
                 | (k, x) :: l', (k', y) :: m' =>
                     String.eqb k k' && json_eqb x y && all2 l' m'
                 | _, _ => false
                 end) l m = true <-> l = m).
    { induction l as [|[k x] l IHl]; intros [|[k' y] m']; simpl;
        try (split; intros H; (discriminate || reflexivity)).
      rewrite !andb_true_iff, IH, IHl, String.eqb_eq.
      split; [intros [[-> ->] ->]; reflexivity|].
      intros H; injection H; auto. }
    rewrite H. split; intros E; congruence.
Qed.

Lemma same_text_eq (a b : option json) : same_text a b = true <-> a = b.
Proof.
  destruct a as [x|], b as [y|]; simpl;
    try (split; intros H; (discriminate || reflexivity)).
  rewrite json_eqb_eq. split; intros H; congruence.
Qed.

Lemma deepCompare_throws (B : browser) (itemValue queryValue : value) (e : exn) :
  deepCompare B itemValue queryValue = Throw e -> e = SyntaxError.
Proof.
  unfold deepCompare.
  repeat match goal with
         | |- context [if ?c then _ else _] => destruct c
         | |- context [match RegExp_test ?b ?x ?y ?z with _ => _ end] =>
             destruct (RegExp_test b x y z)
         end; congruence.
Qed.

Lemma every_throws (p : string -> outcome bool) (keys : list string) (e : exn) :
  every p keys = Throw e -> exists k, p k = Throw e.
Proof.
  induction keys as [|k keys IH]; simpl; [discriminate|].
  destruct (p k) as [[|]|e'] eqn:E; intros H.
  - auto.
  - discriminate.
  - exists k. congruence.
Qed.

Lemma selects_throws (B : browser) (query item : obj) (e : exn) :
  selects B query item = Throw e -> e = SyntaxError.
Proof.
  unfold selects, matches_query.
  destruct (truthy (lookup_prop query "_id")); [discriminate|].
  intros H. apply every_throws in H as [k Hk].
  unfold field_matches in Hk.
  destruct (_ && _) in Hk; [|discriminate].
  eapply deepCompare_throws; eauto.
Qed.

(** ** Searching a collection *)

Section Search.

Context (p : obj -> outcome bool).

Lemma findIndex_none (items : list obj) :
  (forall d, d ∈ items -> p d = Return false) -> findIndex p items = Return None.
Proof.
  induction items as [|d items IH]; intros H; simpl; [reflexivity|].
  rewrite (H d) by apply list_elem_of_here.
  rewrite IH; [reflexivity|].
  intros d' Hd'. apply H. apply list_elem_of_further, Hd'.
Qed.

Lemma findIndex_first (items : list obj) (i : nat) (d : obj) :
  items !! i = Some d -> p d = Return true ->
  (forall j d', (j < i)%nat -> items !! j = Some d' -> p d' = Return false) ->
  findIndex p items = Return (Some i).
Proof.
  revert i; induction items as [|d0 items IH]; intros i Hi Hd Hbefore; [discriminate|].
  destruct i as [|i]; simpl in *.
  - injection Hi as ->. rewrite Hd. reflexivity.
  - rewrite (Hbefore 0%nat d0) by (simpl; auto; lia).
    rewrite (IH i Hi Hd); [reflexivity|].
    intros j d' Hj Hd'. apply (Hbefore (S j) d'); [lia|exact Hd'].
Qed.

Lemma findIndex_throws (items : list obj) (e : exn) :
  findIndex p items = Throw e -> exists d, p d = Throw e.
Proof.
  induction items as [|d items IH]; simpl; [discriminate|].
  destruct (p d) as [[|]|e'] eqn:E; intros H.
  - discriminate.
  - destruct (findIndex p items) as [[i|]|e'']; try discriminate.
    apply IH. congruence.
  - exists d. congruence.
Qed.

End Search.

Lemma findIndex_ext (p q : obj -> outcome bool) (items : list obj) :
  (forall d, p d = q d) -> findIndex p items = findIndex q items.
Proof.
  intros H. induction items as [|d items IH]; simpl; [reflexivity|].
  rewrite H, IH. reflexivity.
Qed.

Lemma find_first_ext (p q : obj -> outcome bool) (items : list obj) :
  (forall d, p d = q d) -> find_first p items = find_first q items.
Proof.
  intros H. induction items as [|d items IH]; simpl; [reflexivity|].
  rewrite H, IH. reflexivity.
Qed.

(** ** Reading *)

(** C1. [find] never looks at its filter: whatever the query, it
    returns what the empty query returns, the whole collection in
    insertion order. On the two stored designs the filter
    [{category: 'Kitchen'}] yields both documents, the second of which
    the matcher rejects, while [countDocuments] with the same filter
    counts one. *)
Theorem find_returns_unfiltered_collection :
  (forall name query sortOptions st, find name query sortOptions st = find name [] [] st) /\
  fst (find "designs" kitchen_filter [] two_designs)
  = Return [ [("_id", VStr "id_a"); ("category", VStr "Kitchen")];
             [("_id", VStr "id_b"); ("category", VStr "Living Room")] ] /\
  matches_query (sample_browser true) kitchen_filter
    [("_id", VStr "id_b"); ("category", VStr "Living Room")] = Return false /\
  fst (countDocuments (sample_browser true) "designs" kitchen_filter two_designs)
  = Return 1%nat.
Proof. split; [reflexivity|]. vm_compute. repeat split. Qed.

(** ** Writing *)

Lemma stamp_frame (B : browser) (doc : obj) (now : string) (st : store) :
  collectionCache (snd (stamp B doc now st)) = collectionCache st /\
  localStorage (snd (stamp B doc now st)) = localStorage st.
Proof.
  unfold stamp, _generateId.
  destruct (negb (truthy (lookup_prop doc "_id"))); simpl; auto.
Qed.

Lemma stamp_all_frame (B : browser) (docs : list obj) (now : string) (st : store) :
  collectionCache (snd (stamp_all B docs now st)) = collectionCache st /\
  localStorage (snd (stamp_all B docs now st)) = localStorage st.
Proof.
  revert st; induction docs as [|d docs IH]; intros st; simpl; [auto|].
  pose proof (stamp_frame B d now st) as [Hc Hl].
  destruct (stamp B d now st) as [d' st1]; simpl in *.
  specialize (IH st1) as [Hc' Hl'].
  destruct (stamp_all B docs now st1) as [rest st2]; simpl in *.
  split; congruence.
Qed.


(** C9, counterexample. The storage is full, [insertOne] throws at
    [setItem], and the collection cache, which had no entry for the
    collection, now holds the array with the new document. *)
Lemma failed_insert_leaves_cache_updated :
  fst (insertOne (sample_browser false) "designs" [("title", VStr "Loft")]
                 "2024-05-01T10:00:00.000Z" empty_store)
  = Throw QuotaExceededError /\
  collectionCache empty_store !! "designs" = None /\
  collectionCache
    (snd (insertOne (sample_browser false) "designs" [("title", VStr "Loft")]
                    "2024-05-01T10:00:00.000Z" empty_store)) !! "designs"
  = Some [ [("title", VStr "Loft"); ("_id", VStr "id_0");
            ("createdAt", VStr "2024-05-01T10:00:00.000Z");
            ("updatedAt", VStr "2024-05-01T10:00:00.000Z")] ].
Proof. vm_compute. repeat split. Qed.

(** C8, counterexample. No design matches the filter
    [{_id: 'id_b', category: 'Kitchen'}]: the matcher rejects both, the
    first for its [_id], the second for its [category], and
    [countDocuments] counts none. [updateOne] with that filter returns
    [matchedCount = 1] all the same and rewrites the second design,
    the one with that [_id]. *)
Lemma id_filter_updates_unmatched_document :
  matches_query (sample_browser true) mixed_filter
    [("_id", VStr "id_a"); ("category", VStr "Kitchen")] = Return false /\
  matches_query (sample_browser true) mixed_filter
    [("_id", VStr "id_b"); ("category", VStr "Living Room")] = Return false /\
  fst (countDocuments (sample_browser true) "designs" mixed_filter two_designs)
  = Return 0%nat /\
  fst (updateOne (sample_browser true) "designs" mixed_filter
         (Some [("style", VStr "Rustic")]) "2024-05-02T08:00:00.000Z" two_designs)
  = Return {| matchedCount := 1; modifiedCount := 1; upd_acknowledged := true |} /\
  collectionCache
    (snd (updateOne (sample_browser true) "designs" mixed_filter
            (Some [("style", VStr "Rustic")]) "2024-05-02T08:00:00.000Z" two_designs))
    !! "designs"
  = Some [ [("_id", VStr "id_a"); ("category", VStr "Kitchen")];
           [("_id", VStr "id_b"); ("category", VStr "Living Room");
            ("style", VStr "Rustic"); ("updatedAt", VStr "2024-05-02T08:00:00.000Z")] ].
Proof. vm_compute. repeat split. Qed.

(** C8, amended. [updateOne] on the array the call reads ([current])
    acts on the first document its callback selects: the first whose
    [_id] is that of the filter when the filter has a truthy [_id],
    whatever its other fields, and otherwise the first that the matcher
    accepts on every field of the filter. When no document is selected
    it returns [matchedCount = 0] without error and the state is what it
    was; when the document at [i] is the first one selected and the
    write fits, it returns [matchedCount = 1], and the collection, in
    the cache and in the backing medium alike, is the old array with
    the document at [i] replaced by its update and every other position
    as before. The updated document holds [now] under [updatedAt], the
    value of [$set] under each of its keys and the old value under any
    other key. *)
Theorem updateOne_first_match
  (B : browser) (name : string) (query : obj) (set : option obj) (now : string)
  (st : store) :
  ((forall d, d ∈ current name st -> selects B query d = Return false) ->
   updateOne B name query set now st
   = (Return {| matchedCount := 0; modifiedCount := 0; upd_acknowledged := true |}, st)) /\
  (forall (i : nat) (d : obj),
      current name st !! i = Some d ->
      selects B query d = Return true ->
      (forall j d', (j < i)%nat -> current name st !! j = Some d' ->
                    selects B query d' = Return false) ->
      setItem_fits B (storage_key name)
        (stringify_items (alter (apply_update set now) i (current name st))) = true ->
      exists st' items',
        updateOne B name query set now st
        = (Return {| matchedCount := 1; modifiedCount := 1; upd_acknowledged := true |}, st') /\
        collectionCache st' !! name = Some items' /\
        localStorage st' !! storage_key name = Some (stringify_items items') /\
        length items' = length (current name st) /\
        items' !! i = Some (apply_update set now d) /\
        (forall j, j <> i -> items' !! j = current name st !! j) /\
        (forall k,
            lookup_prop (apply_update set now d) k
            = if String.eqb "updatedAt" k then VStr now
              else match set with
                   | Some s => if existsb (String.eqb k) (Object_keys s)
                               then lookup_prop s k else lookup_prop d k
                   | None => lookup_prop d k
                   end)) /\
  (forall d,
      selects B query d
      = if truthy (lookup_prop query "_id")
        then Return (strict_eq (id_of (lookup_prop d "_id"))
                               (id_of (lookup_prop query "_id")))
        else every (field_matches B query d) (Object_keys query)).
Proof.
  split; [|split].
  - intros Hnone. unfold updateOne. rewrite (findIndex_none _ _ Hnone). reflexivity.
  - intros i d Hi Hd Hbefore Hfits.
    unfold updateOne. rewrite (findIndex_first _ _ i d Hi Hd Hbefore).
    unfold commit. rewrite Hfits.
    eexists _, (alter (apply_update set now) i (current name st)).
    split; [reflexivity|]. simpl.
    split; [apply lookup_insert_eq|].
    split; [apply lookup_insert_eq|].
    split; [apply length_alter|].
    split; [rewrite list_lookup_alter_eq, Hi; reflexivity|].
    split; [intros j Hj; apply list_lookup_alter_ne; congruence|].
    intros k. apply lookup_apply_update.
  - intros d. reflexivity.
Qed.

Lemma updateOne_first_match_witness :
  updateOne (sample_browser true) "designs" [("category", VStr "Garden")]
            (Some [("style", VStr "Rustic")]) "2024-05-02T08:00:00.000Z" two_designs
  = (Return {| matchedCount := 0; modifiedCount := 0; upd_acknowledged := true |},
     two_designs) /\
  exists st' items',
    updateOne (sample_browser true) "designs" [("category", VStr "Living Room")]
              (Some [("style", VStr "Rustic")]) "2024-05-02T08:00:00.000Z" two_designs
    = (Return {| matchedCount := 1; modifiedCount := 1; upd_acknowledged := true |}, st') /\
    collectionCache st' !! "designs" = Some items' /\
    items' !! 0%nat = Some [("_id", VStr "id_a"); ("category", VStr "Kitchen")] /\
    items' !! 1%nat
    = Some [("_id", VStr "id_b"); ("category", VStr "Living Room");
            ("style", VStr "Rustic"); ("updatedAt", VStr "2024-05-02T08:00:00.000Z")].
Proof.
  split.
  - apply (proj1 (updateOne_first_match (sample_browser true) "designs"
                    [("category", VStr "Garden")] (Some [("style", VStr "Rustic")])
                    "2024-05-02T08:00:00.000Z" two_designs)).
    intros d Hd. vm_compute in Hd.
    apply list_elem_of_In in Hd. simpl in Hd.
    destruct Hd as [<-|[<-|[]]]; reflexivity.
  - destruct (proj1 (proj2 (updateOne_first_match (sample_browser true) "designs"
                       [("category", VStr "Living Room")] (Some [("style", VStr "Rustic")])
                       "2024-05-02T08:00:00.000Z" two_designs))
                1%nat [("_id", VStr "id_b"); ("category", VStr "Living Room")])
      as (st' & items' & Hrun & Hcache & _ & _ & Hi & Hother & _).
    + reflexivity.
    + reflexivity.
    + intros j d' Hj Hd'. destruct j as [|j]; [|lia].
      vm_compute in Hd'. injection Hd' as <-. reflexivity.
    + reflexivity.
    + exists st', items'. split; [exact Hrun|]. split; [exact Hcache|].
      split; [rewrite (Hother 0%nat) by lia; reflexivity|].
      rewrite Hi. reflexivity.
Defined.

(** ** Selection by identifier *)

(** C10, counterexample, in two parts. A filter whose [_id] is falsy
    (here the number 0) is matched field by field: the document with
    that identifier is not selected, because [name] differs. And the
    identifiers are compared with [===], not as strings: the filter
    [{_id: 5}] does not select the document whose identifier is the
    string ['5'], although both print as ['5']. *)
Lemma falsy_or_numeric_id_filter :
  fst (findOne (sample_browser true) "users" [("_id", VNum 0); ("name", VStr "Ravi")]
               numbered_users) = Return None /\
  fst (findOne (sample_browser true) "users" [("_id", VNum 0)] numbered_users)
  = Return (Some [("_id", VNum 0); ("name", VStr "Asha")]) /\
  fst (findOne (sample_browser true) "users" [("_id", VNum 5)] string_id_users)
  = Return None /\
  ToString (VNum 5) = ToString (VStr "5").
Proof. vm_compute. repeat split. Qed.

(** C10, amended. For a filter whose [_id] is truthy, the callback of
    [findOne], [updateOne] and [deleteOne] compares with [===] the two
    identifiers, an [ObjectId] instance replaced by its string, and
    reads no other field: each of the three calls does what it does on
    the filter cut down to its [_id]. *)
Theorem id_filter_selects_by_id (B : browser) (query : obj) :
  truthy (lookup_prop query "_id") = true ->
  (forall item,
      selects B query item
      = Return (strict_eq (id_of (lookup_prop item "_id"))
                          (id_of (lookup_prop query "_id")))) /\
  (forall name st,
      findOne B name query st = findOne B name [("_id", lookup_prop query "_id")] st) /\
  (forall name set now st,
      updateOne B name query set now st
      = updateOne B name [("_id", lookup_prop query "_id")] set now st) /\
  (forall name st,
      deleteOne B name query st = deleteOne B name [("_id", lookup_prop query "_id")] st).
Proof.
  intros Hid.
  assert (Hsel : forall item,
             selects B query item
             = Return (strict_eq (id_of (lookup_prop item "_id"))
                                 (id_of (lookup_prop query "_id")))).
  { intros item. unfold selects. rewrite Hid. reflexivity. }
  assert (Hcut : forall item,
             selects B query item = selects B [("_id", lookup_prop query "_id")] item).
  { intros item. rewrite Hsel. unfold selects. simpl. rewrite Hid. reflexivity. }
  split; [exact Hsel|]. split; [|split].
  - intros name st. unfold findOne. destruct (load name st) as [items st1].
    rewrite (find_first_ext _ _ items Hcut). reflexivity.
  - intros name set now st. unfold updateOne.
    rewrite (findIndex_ext _ _ (current name st) Hcut). reflexivity.
  - intros name st. unfold deleteOne.
    rewrite (findIndex_ext _ _ (current name st) Hcut). reflexivity.
Qed.

Lemma id_filter_selects_by_id_witness :
  truthy (lookup_prop [("_id", VObjectId "id_b"); ("category", VStr "Kitchen")] "_id") = true /\
  selects (sample_browser true) [("_id", VObjectId "id_b"); ("category", VStr "Kitchen")]
          [("_id", VStr "id_b"); ("category", VStr "Living Room")]
  = Return true.
Proof.
  split; [reflexivity|].
  exact (proj1 (id_filter_selects_by_id (sample_browser true)
                  [("_id", VObjectId "id_b"); ("category", VStr "Kitchen")] eq_refl)
           [("_id", VStr "id_b"); ("category", VStr "Living Room")]).
Defined.

(** ** The result cache *)

Lemma lookup_delete_keys (p : string -> bool) (keys : list string)
  (m : gmap string cache_entry) (k : string) :
  fold_left (fun m k => if p k then delete k m else m) keys m !! k
  = if p k && bool_decide (k ∈ keys) then None else m !! k.
Proof.
  revert m; induction keys as [|k0 keys IH]; intros m; simpl.
  - rewrite andb_false_r. reflexivity.
  - rewrite IH. destruct (p k) eqn:Hp; simpl.
    + destruct (decide (k = k0)) as [->|Hne].
      * rewrite Hp, lookup_delete_eq.
        rewrite (bool_decide_eq_true_2 (k0 ∈ k0 :: keys)) by apply list_elem_of_here.
        destruct (bool_decide (k0 ∈ keys)); reflexivity.
      * assert (Hm : (if p k0 then delete k0 m else m) !! k = m !! k).
        { destruct (p k0); [apply lookup_delete_ne; congruence|reflexivity]. }
        rewrite Hm.
        destruct (decide (k ∈ keys)) as [Hin|Hnin].
        -- rewrite !bool_decide_eq_true_2; auto using list_elem_of_further.
        -- rewrite !bool_decide_eq_false_2; auto.
           rewrite elem_of_cons. intros [?|?]; contradiction.
    + destruct (p k0) eqn:Hp0; [|reflexivity].
      apply lookup_delete_ne. intros ->. congruence.
Qed.

(** What [delete_where] leaves under each key. *)
Lemma lookup_delete_where (p : string -> bool) (cache : gmap string cache_entry)
  (k : string) :
  delete_where p cache !! k = if p k then None else cache !! k.
Proof.
  unfold delete_where. rewrite lookup_delete_keys.
  destruct (p k); simpl; [|reflexivity].
  destruct (cache !! k) as [e|] eqn:E.
  - rewrite bool_decide_eq_true_2; [reflexivity|].
    apply list_elem_of_In, in_map_iff. exists (k, e). split; [reflexivity|].
    apply list_elem_of_In, elem_of_map_to_list, E.
  - destruct (bool_decide _); reflexivity.
Qed.

Lemma includes_star_marker (prefix : string) : includes_star (prefix ++ "*") = true.
Proof.
  induction prefix as [|a prefix IH]; simpl; [reflexivity|].
  destruct (Ascii.eqb a "*"); auto.
Qed.

Lemma replace_star_marker (prefix : string) :
  includes_star prefix = false -> replace_star (prefix ++ "*") = prefix.
Proof.
  induction prefix as [|a prefix IH]; simpl; [reflexivity|].
  destruct (Ascii.eqb a "*"); [discriminate|].
  intros H. rewrite IH by exact H. reflexivity.
Qed.

(** C6, counterexample, in two parts. The pattern ["a*b*"] ends in the
    marker and the prefix before it is ["a*b"]; the call removes the
    first star instead of the last, so the entry ["a*bc"], which starts
    with that prefix, stays, and ["ab*c"], which does not, goes. And the
    exact key [""] is taken for a missing argument: every entry goes,
    also the one under ["x"]. *)
Lemma invalidate_inner_star_or_empty_key :
  invalidateServiceCache (Some "a*b*")
    {[ "a*bc" := entry (VStr "A") 0; "ab*c" := entry (VStr "B") 0 ]} !! "a*bc"
  = Some (entry (VStr "A") 0) /\
  invalidateServiceCache (Some "a*b*")
    {[ "a*bc" := entry (VStr "A") 0; "ab*c" := entry (VStr "B") 0 ]} !! "ab*c"
  = None /\
  String.prefix "a*b" "a*bc" = true /\ String.prefix "a*b" "ab*c" = false /\
  invalidateServiceCache (Some "")
    {[ "" := entry (VStr "A") 0; "x" := entry (VStr "B") 0 ]} !! "x"
  = None.
Proof. vm_compute. repeat split. Qed.

(** C6, amended. A key that is not empty and holds no star removes the
    entry under it and no other; a pattern whose one star is its last
    character removes exactly the entries whose key starts with what
    precedes the star; the call without argument removes every entry.
    On the three keys of the example, ["design_*"] removes [design_1]
    and [design_2] and leaves [designs_getAll]. *)
Theorem invalidateServiceCache_spec (cache : gmap string cache_entry) :
  (forall key k,
      key <> "" -> includes_star key = false ->
      invalidateServiceCache (Some key) cache !! k
      = if String.eqb key k then None else cache !! k) /\
  (forall prefix k,
      includes_star prefix = false ->
      invalidateServiceCache (Some (prefix ++ "*")) cache !! k
      = if String.prefix prefix k then None else cache !! k) /\
  invalidateServiceCache None cache = ∅ /\
  invalidateServiceCache (Some "design_*") design_cache !! "design_1" = None /\
  invalidateServiceCache (Some "design_*") design_cache !! "design_2" = None /\
  invalidateServiceCache (Some "design_*") design_cache !! "designs_getAll"
  = Some (entry (VStr "C") 0).
Proof.
  split; [|split; [|split]].
  - intros key k Hne Hstar. unfold invalidateServiceCache.
    destruct (String.eqb_spec key "") as [->|_]; [congruence|]. simpl.
    rewrite Hstar.
    destruct (String.eqb_spec key k) as [->|Hk].
    + apply lookup_delete_eq.
    + apply lookup_delete_ne, Hk.
  - intros prefix k Hstar. unfold invalidateServiceCache.
    destruct (String.eqb_spec (prefix ++ "*") "") as [Hempty|_].
    { destruct prefix; discriminate. }
    simpl. rewrite includes_star_marker, (replace_star_marker _ Hstar).
    apply lookup_delete_where.
  - apply map_empty. intros k. unfold invalidateServiceCache.
    apply (lookup_delete_where (fun _ => true)).
  - vm_compute. repeat split.
Qed.

Lemma invalidateServiceCache_spec_witness :
  invalidateServiceCache (Some "users_*") design_cache !! "design_1"
  = Some (entry (VStr "A") 0) /\
  invalidateServiceCache (Some "design_1") design_cache !! "design_1" = None /\
  invalidateServiceCache (Some "design_1") design_cache !! "design_2"
  = Some (entry (VStr "B") 0).
Proof.
  split; [|split].
  - exact (proj1 (proj2 (invalidateServiceCache_spec design_cache))
             "users_" "design_1" eq_refl).
  - refine (proj1 (invalidateServiceCache_spec design_cache)
              "design_1" "design_1" _ eq_refl).
    discriminate.
  - refine (proj1 (invalidateServiceCache_spec design_cache)
              "design_1" "design_2" _ eq_refl).
    discriminate.
Defined.

(** C5, counterexample. The entry of [designs_getAll] was stored at the
    time 1000 with the empty list, and the store holds two designs.
    5001 ms later [designService.getAll] still returns the empty list
    and changes nothing, where reading the store again would give the
    two designs: the entry has no TTL of 5000 ms, every lookup of the
    services compares its age with [CACHE_EXPIRATION]. *)
Lemma entry_still_served_after_5001_ms :
  getAll_body (1000 + 5001) (1000 + 5002) (cached_app (VArr []))
  = (Return (VArr []), cached_app (VArr [])) /\
  fst (fetch_designs (1000 + 5002) (cached_app (VArr [])))
  = Return (VArr [ VObj [("_id", VStr "id_a"); ("category", VStr "Kitchen");
                         ("id", VStr "id_a")];
                   VObj [("_id", VStr "id_b"); ("category", VStr "Living Room");
                         ("id", VStr "id_b")] ]).
Proof. vm_compute. repeat split. Qed.

(** C5, amended. The TTL of the result cache is the one constant
    [CACHE_EXPIRATION], five minutes. An entry of [designs_getAll]
    stored at the time [timestamp e] is served by
    [designService.getAll], unchanged and without any change of state,
    at every time [now1] with [now1 - timestamp e < CACHE_EXPIRATION],
    so 299999 ms after it was stored and also 5001 ms after; from
    300000 ms on it is not served any more: the collection is read
    again and the new value is stored with the new time. *)
Theorem getAll_serves_for_five_minutes (a : app) (e : cache_entry) (now1 now2 : Z) :
  serviceCache a !! "designs_getAll" = Some e ->
  CACHE_EXPIRATION = 5 * 60 * 1000 /\
  (now1 - timestamp e < CACHE_EXPIRATION ->
   getAll_body now1 now2 a = (Return (data e), a) /\
   getAll now1 now2 a = (if truthy (data e) then data e else VArr [], a)) /\
  (CACHE_EXPIRATION <= now1 - timestamp e ->
   exists a',
     getAll_body now1 now2 a
     = (Return (VArr (map with_id (fst (load "designs" (db a))))), a') /\
     getAll now1 now2 a = (VArr (map with_id (fst (load "designs" (db a)))), a') /\
     serviceCache a' !! "designs_getAll"
     = Some (entry (VArr (map with_id (fst (load "designs" (db a))))) now2)) /\
  getAll_body (timestamp e + 5001) now2 a = (Return (data e), a) /\
  getAll_body (timestamp e + 299999) now2 a = (Return (data e), a) /\
  (exists a',
      getAll_body (timestamp e + 300000) now2 a
      = (Return (VArr (map with_id (fst (load "designs" (db a))))), a') /\
      serviceCache a' !! "designs_getAll"
      = Some (entry (VArr (map with_id (fst (load "designs" (db a))))) now2)).
Proof.
  intros He.
  assert (Hserved : forall now,
             now - timestamp e < CACHE_EXPIRATION ->
             getAll_body now now2 a = (Return (data e), a)).
  { intros now Hlt. unfold getAll_body, cached, is_fresh. rewrite He.
    destruct (Z.ltb_spec (now - timestamp e) CACHE_EXPIRATION); [reflexivity|lia]. }
  assert (Hexpired : forall now,
             CACHE_EXPIRATION <= now - timestamp e ->
             exists a',
               getAll_body now now2 a
               = (Return (VArr (map with_id (fst (load "designs" (db a))))), a') /\
               serviceCache a' !! "designs_getAll"
               = Some (entry (VArr (map with_id (fst (load "designs" (db a))))) now2)).
  { intros now Hge. unfold getAll_body, cached, is_fresh. rewrite He.
    destruct (Z.ltb_spec (now - timestamp e) CACHE_EXPIRATION); [lia|].
    unfold fetch_designs, find. destruct (load "designs" (db a)) as [designs db'].
    eexists. split; [reflexivity|]. simpl. apply lookup_insert_eq. }
  assert (Hconst : CACHE_EXPIRATION = 300000) by reflexivity.
  split; [reflexivity|].
  split.
  { intros Hlt. split; [apply Hserved, Hlt|].
    unfold getAll. rewrite (Hserved now1 Hlt). reflexivity. }
  split.
  { intros Hge. destruct (Hexpired now1 Hge) as (a' & Hbody & Hentry).
    exists a'. split; [exact Hbody|]. split; [|exact Hentry].
    unfold getAll. rewrite Hbody. reflexivity. }
  split; [apply Hserved; lia|].
  split; [apply Hserved; lia|].
  apply Hexpired. lia.
Qed.

Lemma getAll_serves_for_five_minutes_witness :
  serviceCache (cached_app (VArr [])) !! "designs_getAll" = Some (entry (VArr []) 1000) /\
  getAll_body (1000 + 299999) (1000 + 300000) (cached_app (VArr []))
  = (Return (VArr []), cached_app (VArr [])) /\
  exists a',
    getAll_body (1000 + 300000) (1000 + 300001) (cached_app (VArr []))
    = (Return (VArr (map with_id (fst (load "designs" two_designs)))), a') /\
    serviceCache a' !! "designs_getAll"
    = Some (entry (VArr (map with_id (fst (load "designs" two_designs)))) (1000 + 300001)).
Proof.
  assert (He : serviceCache (cached_app (VArr [])) !! "designs_getAll"
               = Some (entry (VArr []) 1000)) by reflexivity.
  pose proof (getAll_serves_for_five_minutes (cached_app (VArr [])) (entry (VArr []) 1000)
                (1000 + 299999) (1000 + 300000) He) as (_ & Hserved & _).
  pose proof (getAll_serves_for_five_minutes (cached_app (VArr [])) (entry (VArr []) 1000)
                (1000 + 300000) (1000 + 300001) He) as (_ & _ & _ & _ & _ & Hexpired).
  split; [exact He|]. split.
  - apply Hserved. vm_compute. reflexivity.
  - exact Hexpired.
Defined.

(** ** The cache and the backing medium across reads *)

Lemma stringify_parse (j : json) : JSON_stringify (JSON_parse j) = Some j.
Proof.
  revert j. fix IH 1.
  intros [|b|n|s|l|m]; simpl; try reflexivity.
  - do 2 f_equal. induction l as [|x l IHl]; simpl; [reflexivity|].
    rewrite IH, IHl. reflexivity.
  - do 2 f_equal. induction m as [|[k x] m IHm]; simpl; [reflexivity|].
    rewrite IH, IHm. reflexivity.
Qed.

Lemma stringify_parse_doc (m : jobj) : stringify_doc (parse_doc m) = m.
Proof.
  pose proof (stringify_parse (JObj m)) as H.
  unfold stringify_doc, parse_doc. cbn [JSON_parse] in *.
  rewrite H. reflexivity.
Qed.

Lemma stringify_parse_items (text : list jobj) :
  stringify_items (parse_items text) = text.
Proof.
  induction text as [|m text IH]; simpl; [reflexivity|].
  rewrite stringify_parse_doc. f_equal. exact IH.
Qed.

(** A store with nothing cached for the collection is consistent, and
    reading the collection keeps it so: the entry a read creates is the
    parsed text of the backing medium. *)
Lemma load_consistent (name : string) (st : store) :
  consistent st name -> consistent (snd (load name st)) name.
Proof.
  intros Hcons. unfold load.
  destruct (collectionCache st !! name) as [items|] eqn:E; simpl; [exact Hcons|].
  intros items Hitems. simpl in Hitems.
  rewrite lookup_insert_eq in Hitems. injection Hitems as <-.
  unfold stored, persisted. simpl.
  destruct (localStorage st !! storage_key name) as [text|]; [|reflexivity].
  apply stringify_parse_items.
Qed.

Lemma uncached_consistent (name : string) (st : store) :
  collectionCache st !! name = None -> consistent st name.
Proof. intros H items Hitems. congruence. Qed.

(** * Further properties of the store *)

(** ** Inserting *)

(** The document [insertOne] and [insertMany] push, key by key. *)
Lemma stamp_lookup (B : browser) (doc : obj) (now : string) (st : store) (k : string) :
  lookup_prop (fst (stamp B doc now st)) k
  = if String.eqb "updatedAt" k then VStr now
    else if String.eqb "createdAt" k then
           (if truthy (lookup_prop doc "createdAt") then lookup_prop doc "createdAt"
            else VStr now)
    else if String.eqb "_id" k then
           (if truthy (lookup_prop doc "_id") then lookup_prop doc "_id"
            else VStr ("id_" ++ Math_random B (draws st)))
    else lookup_prop doc k.
Proof.
  unfold stamp, _generateId.
  destruct (truthy (lookup_prop doc "_id")) eqn:Hid;
    cbn -[String.eqb append]; rewrite !lookup_set_prop;
    (destruct (String.eqb_spec "_id" k) as [<-|Hi]; [reflexivity|]);
    destruct (String.eqb "updatedAt" k), (String.eqb "createdAt" k); reflexivity.
Qed.

Lemma stamp_id_truthy (B : browser) (doc : obj) (now : string) (st : store) :
  truthy (lookup_prop (fst (stamp B doc now st)) "_id") = true.
Proof.
  rewrite stamp_lookup. cbn -[append].
  destruct (truthy (lookup_prop doc "_id")) eqn:Hid; [exact Hid|reflexivity].
Qed.

Lemma current_frame (name : string) (st st1 : store) :
  collectionCache st1 = collectionCache st -> localStorage st1 = localStorage st ->
  current name st1 = current name st.
Proof. intros Hc Hl. unfold current, stored. rewrite Hc, Hl. reflexivity. Qed.

(** What a completed [insertOne] leaves. *)
Lemma insertOne_inv (B : browser) (name : string) (doc : obj) (now : string)
  (st st' : store) (r : insert_result) :
  insertOne B name doc now st = (Return r, st') ->
  insertedId r = lookup_prop (fst (stamp B doc now st)) "_id" /\
  collectionCache st' !! name = Some (current name st ++ [fst (stamp B doc now st)])%list /\
  localStorage st' !! storage_key name
  = Some (stringify_items (current name st ++ [fst (stamp B doc now st)])%list).
Proof.
  unfold insertOne.
  pose proof (stamp_frame B doc now st) as [Hc Hl].
  destruct (stamp B doc now st) as [doc' st1]; simpl in *.
  rewrite (current_frame name st st1 Hc Hl).
  unfold commit.
  destruct (setItem_fits B (storage_key name) _); [|discriminate].
  intros H. injection H as <- <-. simpl.
  split; [reflexivity|]. split; apply lookup_insert_eq.
Qed.

(** X2. A completed [insertOne] puts one document after the ones the
    collection had, in the cache and in the backing medium alike, and
    returns its [_id], which is truthy. The document keeps every field
    of the caller: a truthy [_id] and a truthy [createdAt] stay, a falsy
    [_id] becomes ['id_'] followed by the random draw, a falsy
    [createdAt] becomes the time of the call, and [updatedAt] is always
    the time of the call. *)
Theorem insertOne_appends_stamped_document
  (B : browser) (name : string) (doc : obj) (now : string)
  (st st' : store) (r : insert_result) :
  insertOne B name doc now st = (Return r, st') ->
  exists doc',
    collectionCache st' !! name = Some (current name st ++ [doc'])%list /\
    localStorage st' !! storage_key name
    = Some (stringify_items (current name st ++ [doc'])%list) /\
    insertedId r = lookup_prop doc' "_id" /\
    truthy (insertedId r) = true /\
    forall k,
      lookup_prop doc' k
      = if String.eqb "updatedAt" k then VStr now
        else if String.eqb "createdAt" k then
               (if truthy (lookup_prop doc "createdAt") then lookup_prop doc "createdAt"
                else VStr now)
        else if String.eqb "_id" k then
               (if truthy (lookup_prop doc "_id") then lookup_prop doc "_id"
                else VStr ("id_" ++ Math_random B (draws st)))
        else lookup_prop doc k.
Proof.
  intros H. apply insertOne_inv in H as (Hid & Hcache & Htext).
  exists (fst (stamp B doc now st)).
  split; [exact Hcache|]. split; [exact Htext|]. split; [exact Hid|].
  split; [rewrite Hid; apply stamp_id_truthy|].
  intros k. apply stamp_lookup.
Qed.

Lemma insertOne_appends_stamped_document_witness :
  exists doc',
    collectionCache
      (snd (insertOne (sample_browser true) "designs" [("title", VStr "Loft")]
                      "2024-05-01T10:00:00.000Z" two_designs)) !! "designs"
    = Some (current "designs" two_designs ++ [doc'])%list /\
    lookup_prop doc' "title" = VStr "Loft" /\
    lookup_prop doc' "_id" = VStr "id_0".
Proof.
  destruct (insertOne_appends_stamped_document (sample_browser true) "designs"
              [("title", VStr "Loft")] "2024-05-01T10:00:00.000Z" two_designs
              (snd (insertOne (sample_browser true) "designs" [("title", VStr "Loft")]
                              "2024-05-01T10:00:00.000Z" two_designs))
              {| insertedId := VStr "id_0"; ins_acknowledged := true |})
    as (doc' & Hcache & _ & _ & _ & Hk).
  - vm_compute. reflexivity.
  - exists doc'. split; [exact Hcache|].
    split; rewrite Hk; reflexivity.
Defined.

Lemma find_first_app (p : obj -> outcome bool) (l l' : list obj) :
  (forall d, d ∈ l -> p d = Return false) ->
  find_first p (l ++ l')%list = find_first p l'.
Proof.
  induction l as [|d l IH]; intros H; simpl; [reflexivity|].
  rewrite (H d) by apply list_elem_of_here.
  apply IH. intros d' Hd'. apply H, list_elem_of_further, Hd'.
Qed.

Lemma load_cached (name : string) (st : store) (items : list obj) :
  collectionCache st !! name = Some items -> load name st = (items, st).
Proof. intros H. unfold load. rewrite H. reflexivity. Qed.

(** X1. Insert, then look up by the identifier returned: when no
    document of the collection already has that identifier, and the
    identifier is one [===] can recognise (a primitive or an [ObjectId],
    not a plain object), [findOne({_id: insertedId})] returns the
    document just inserted and changes nothing. *)
Theorem insertOne_then_findOne
  (B : browser) (name : string) (doc : obj) (now : string)
  (st st' : store) (r : insert_result) :
  insertOne B name doc now st = (Return r, st') ->
  (forall d, d ∈ current name st ->
             strict_eq (id_of (lookup_prop d "_id")) (id_of (insertedId r)) = false) ->
  strict_eq (id_of (insertedId r)) (id_of (insertedId r)) = true ->
  findOne B name [("_id", insertedId r)] st'
  = (Return (Some (fst (stamp B doc now st))), st').
Proof.
  intros H Hfresh Hself.
  apply insertOne_inv in H as (Hid & Hcache & _).
  unfold findOne. rewrite (load_cached _ _ _ Hcache).
  assert (Hsel : forall d,
             selects B [("_id", insertedId r)] d
             = Return (strict_eq (id_of (lookup_prop d "_id")) (id_of (insertedId r)))).
  { intros d. unfold selects. simpl.
    rewrite Hid, stamp_id_truthy. reflexivity. }
  rewrite find_first_app.
  - simpl. rewrite Hsel, <- Hid, Hself. reflexivity.
  - intros d Hd. rewrite Hsel, (Hfresh d Hd). reflexivity.
Qed.

Lemma insertOne_then_findOne_witness :
  fst (findOne (sample_browser true) "designs" [("_id", VStr "id_0")]
         (snd (insertOne (sample_browser true) "designs" [("title", VStr "Loft")]
                         "2024-05-01T10:00:00.000Z" two_designs)))
  = Return (Some [("title", VStr "Loft"); ("_id", VStr "id_0");
                  ("createdAt", VStr "2024-05-01T10:00:00.000Z");
                  ("updatedAt", VStr "2024-05-01T10:00:00.000Z")]).
Proof.
  refine (f_equal fst
            (insertOne_then_findOne (sample_browser true) "designs" [("title", VStr "Loft")]
               "2024-05-01T10:00:00.000Z" two_designs
               (snd (insertOne (sample_browser true) "designs" [("title", VStr "Loft")]
                               "2024-05-01T10:00:00.000Z" two_designs))
               {| insertedId := VStr "id_0"; ins_acknowledged := true |} _ _ _)).
  - vm_compute. reflexivity.
  - intros d Hd. vm_compute in Hd.
    apply list_elem_of_In in Hd. simpl in Hd.
    destruct Hd as [<-|[<-|[]]]; reflexivity.
  - reflexivity.
Defined.

Lemma stamp_all_spec (B : browser) (docs : list obj) (now : string) (st : store) :
  Forall2 (fun d d' => exists sti, d' = fst (stamp B d now sti))
          docs (fst (stamp_all B docs now st)).
Proof.
  revert st; induction docs as [|d docs IH]; intros st; simpl; [constructor|].
  destruct (stamp B d now st) as [d' st1] eqn:E.
  specialize (IH st1). destruct (stamp_all B docs now st1) as [rest st2]; simpl in *.
  constructor; [|exact IH]. exists st. rewrite E. reflexivity.
Qed.

(** X3. A completed [insertMany] puts the documents of the batch, in
    their order and stamped like those of [insertOne], after the ones
    the collection had, writes the whole array once, and returns the
    size of the batch with one truthy identifier per document. An empty
    batch still writes the collection as it is. *)
Theorem insertMany_appends_batch
  (B : browser) (name : string) (docs : list obj) (now : string)
  (st st' : store) (r : insert_many_result) :
  insertMany B name docs now st = (Return r, st') ->
  insertedCount r = length docs /\
  exists docs',
    collectionCache st' !! name = Some (current name st ++ docs')%list /\
    localStorage st' !! storage_key name
    = Some (stringify_items (current name st ++ docs')%list) /\
    insertedIds r = map (fun d => lookup_prop d "_id") docs' /\
    Forall (fun id => truthy id = true) (insertedIds r) /\
    Forall2 (fun d d' =>
               lookup_prop d' "updatedAt" = VStr now /\
               (truthy (lookup_prop d "_id") = true ->
                lookup_prop d' "_id" = lookup_prop d "_id") /\
               (truthy (lookup_prop d "createdAt") = true ->
                lookup_prop d' "createdAt" = lookup_prop d "createdAt") /\
               (forall k, String.eqb "updatedAt" k = false ->
                          String.eqb "createdAt" k = false ->
                          String.eqb "_id" k = false ->
                          lookup_prop d' k = lookup_prop d k))
            docs docs'.
Proof.
  unfold insertMany.
  pose proof (stamp_all_spec B docs now st) as Hspec.
  destruct (stamp_all B docs now st) as [docs' st1]; simpl in Hspec.
  unfold commit.
  destruct (setItem_fits B (storage_key name) _); [|discriminate].
  intros H. injection H as <- <-. cbn [insertedCount insertedIds].
  split; [reflexivity|]. exists docs'.
  split; [apply lookup_insert_eq|]. split; [apply lookup_insert_eq|].
  split; [reflexivity|]. split.
  - clear -Hspec. induction Hspec as [|d d' docs docs' [sti ->] _ IH]; simpl;
      constructor; [apply stamp_id_truthy|exact IH].
  - clear -Hspec. induction Hspec as [|d d' docs docs' [sti ->] _ IH];
      constructor; [|exact IH].
    split; [rewrite stamp_lookup; reflexivity|].
    split; [intros Hid; rewrite stamp_lookup; cbn -[append]; rewrite Hid; reflexivity|].
    split; [intros Hc; rewrite stamp_lookup; cbn -[append]; rewrite Hc; reflexivity|].
    intros k Hu Hc Hi. rewrite stamp_lookup, Hu, Hc, Hi. reflexivity.
Qed.

Lemma insertMany_appends_batch_witness :
  exists docs',
    collectionCache
      (snd (insertMany (sample_browser true) "designs"
              [[("title", VStr "Loft")]; [("_id", VStr "id_9")]]
              "2024-05-01T10:00:00.000Z" two_designs)) !! "designs"
    = Some (current "designs" two_designs ++ docs')%list /\
    [VStr "id_0"; VStr "id_9"] = map (fun d => lookup_prop d "_id") docs'.
Proof.
  destruct (insertMany_appends_batch (sample_browser true) "designs"
              [[("title", VStr "Loft")]; [("_id", VStr "id_9")]]
              "2024-05-01T10:00:00.000Z" two_designs
              (snd (insertMany (sample_browser true) "designs"
                      [[("title", VStr "Loft")]; [("_id", VStr "id_9")]]
                      "2024-05-01T10:00:00.000Z" two_designs))
              {| insertedCount := 2; insertedIds := [VStr "id_0"; VStr "id_9"];
                 many_acknowledged := true |})
    as (_ & docs' & Hcache & _ & Hids & _).
  - vm_compute. reflexivity.
  - exists docs'. split; [exact Hcache|exact Hids].
Defined.

(** ** Deleting *)

(** X4. [deleteOne] on the array the call reads: when no document is
    selected it returns [deletedCount = 0] and the state is what it
    was; when the document at [i] is the first one selected and the
    write fits, it returns [deletedCount = 1] and the collection, in
    the cache and in the backing medium alike, is the old array without
    its element at [i]: the documents before keep their place, the ones
    after move up by one. *)
Theorem deleteOne_first_match (B : browser) (name : string) (query : obj) (st : store) :
  ((forall d, d ∈ current name st -> selects B query d = Return false) ->
   deleteOne B name query st
   = (Return {| deletedCount := 0; del_acknowledged := true |}, st)) /\
  (forall (i : nat) (d : obj),
      current name st !! i = Some d ->
      selects B query d = Return true ->
      (forall j d', (j < i)%nat -> current name st !! j = Some d' ->
                    selects B query d' = Return false) ->
      setItem_fits B (storage_key name)
        (stringify_items (delete i (current name st))) = true ->
      exists st' items',
        deleteOne B name query st
        = (Return {| deletedCount := 1; del_acknowledged := true |}, st') /\
        collectionCache st' !! name = Some items' /\
        localStorage st' !! storage_key name = Some (stringify_items items') /\
        S (length items') = length (current name st) /\
        (forall j, (j < i)%nat -> items' !! j = current name st !! j) /\
        (forall j, (i <= j)%nat -> items' !! j = current name st !! S j)).
Proof.
  split.
  - intros Hnone. unfold deleteOne. rewrite (findIndex_none _ _ Hnone). reflexivity.
  - intros i d Hi Hd Hbefore Hfits.
    unfold deleteOne. rewrite (findIndex_first _ _ i d Hi Hd Hbefore).
    unfold commit. rewrite Hfits.
    eexists _, (delete i (current name st)).
    split; [reflexivity|]. simpl.
    split; [apply lookup_insert_eq|].
    split; [apply lookup_insert_eq|].
    split.
    { rewrite length_delete by (rewrite Hi; eauto).
      apply lookup_lt_Some in Hi. lia. }
    split; [intros j Hj; apply list_lookup_delete_lt, Hj|].
    intros j Hj. apply list_lookup_delete_ge, Hj.
Qed.

Lemma deleteOne_first_match_witness :
  deleteOne (sample_browser true) "designs" [("_id", VStr "id_z")] two_designs
  = (Return {| deletedCount := 0; del_acknowledged := true |}, two_designs) /\
  exists st' items',
    deleteOne (sample_browser true) "designs" [("_id", VStr "id_a")] two_designs
    = (Return {| deletedCount := 1; del_acknowledged := true |}, st') /\
    collectionCache st' !! "designs" = Some items' /\
    items' !! 0%nat = Some [("_id", VStr "id_b"); ("category", VStr "Living Room")].
Proof.
  split.
  - apply (proj1 (deleteOne_first_match (sample_browser true) "designs"
                    [("_id", VStr "id_z")] two_designs)).
    intros d Hd. vm_compute in Hd.
    apply list_elem_of_In in Hd. simpl in Hd.
    destruct Hd as [<-|[<-|[]]]; reflexivity.
  - destruct (proj2 (deleteOne_first_match (sample_browser true) "designs"
                       [("_id", VStr "id_a")] two_designs)
                0%nat [("_id", VStr "id_a"); ("category", VStr "Kitchen")])
      as (st' & items' & Hrun & Hcache & _ & _ & _ & Hafter).
    + reflexivity.
    + reflexivity.
    + intros j d' Hj. lia.
    + reflexivity.
    + exists st', items'. split; [exact Hrun|]. split; [exact Hcache|].
      rewrite (Hafter 0%nat) by lia. reflexivity.
Defined.

(** ** Reading and the collection cache *)

(** X5. A read never writes the backing medium and takes no random
    draw: [find] leaves the array it returns as the cache entry of the
    collection and touches no other entry, and from then on every read
    of the collection is served from that entry and changes nothing. *)
Theorem reads_fill_cache_once (name : string) (query sortOptions : obj) (st : store) :
  exists items st1,
    find name query sortOptions st = (Return items, st1) /\
    localStorage st1 = localStorage st /\
    draws st1 = draws st /\
    collectionCache st1 !! name = Some items /\
    (forall other, other <> name ->
                   collectionCache st1 !! other = collectionCache st !! other) /\
    (forall q s, find name q s st1 = (Return items, st1)) /\
    (forall B q, snd (findOne B name q st1) = st1) /\
    (forall B q, snd (countDocuments B name q st1) = st1).
Proof.
  unfold find, findOne, countDocuments, load.
  destruct (collectionCache st !! name) as [items|] eqn:E.
  - exists items, st. rewrite E. repeat split; auto.
    intros B q. destruct (Object_keys q); [reflexivity|].
    destruct (filter_items _ _); reflexivity.
  - eexists _, _. split; [reflexivity|]. simpl.
    rewrite lookup_insert_eq. repeat split; auto.
    + intros other Hother. apply lookup_insert_ne. congruence.
    + intros B q. destruct (Object_keys q); [reflexivity|].
      destruct (filter_items _ _); reflexivity.
Qed.

Lemma lookup_fold_delete {A : Type} (keys : list string) (m : gmap string A) (k : string) :
  fold_left (fun m key => delete key m) keys m !! k
  = if bool_decide (k ∈ keys) then None else m !! k.
Proof.
  revert m; induction keys as [|k0 keys IH]; intros m; simpl; [reflexivity|].
  rewrite IH. destruct (decide (k = k0)) as [->|Hne].
  - rewrite lookup_delete_eq.
    rewrite (bool_decide_eq_true_2 (k0 ∈ k0 :: keys)) by apply list_elem_of_here.
    destruct (bool_decide (k0 ∈ keys)); reflexivity.
  - rewrite lookup_delete_ne by congruence.
    destruct (decide (k ∈ keys)) as [Hin|Hnin].
    + rewrite !bool_decide_eq_true_2; auto using list_elem_of_further.
    + rewrite !bool_decide_eq_false_2; auto.
      rewrite elem_of_cons. intros [?|?]; contradiction.
Qed.

Lemma fold_delete_all {A : Type} (m : gmap string A) :
  fold_left (fun m key => delete key m) (map fst (map_to_list m)) m = ∅.
Proof.
  apply map_empty. intros k. rewrite lookup_fold_delete.
  destruct (m !! k) as [x|] eqn:E.
  - rewrite bool_decide_eq_true_2; [reflexivity|].
    apply list_elem_of_In, in_map_iff. exists (k, x). split; [reflexivity|].
    apply list_elem_of_In, elem_of_map_to_list, E.
  - destruct (bool_decide _); reflexivity.
Qed.

(** X6. [invalidateCache(name)] drops the cache entry of that
    collection and no other and leaves the backing medium alone, so the
    next read returns what the backing medium holds; without argument
    (or with the empty name) it drops every entry. *)
Theorem invalidateCache_forces_reload (st : store) :
  (forall name query sortOptions,
      name <> "" ->
      fst (find name query sortOptions (invalidateCache (Some name) st))
      = Return (stored st name) /\
      localStorage (invalidateCache (Some name) st) = localStorage st /\
      forall other, other <> name ->
                    collectionCache (invalidateCache (Some name) st) !! other
                    = collectionCache st !! other) /\
  collectionCache (invalidateCache None st) = ∅ /\
  collectionCache (invalidateCache (Some "") st) = ∅.
Proof.
  split; [|split; apply fold_delete_all].
  intros name query sortOptions Hname.
  unfold invalidateCache.
  destruct (String.eqb_spec name "") as [->|_]; [congruence|].
  cbn [negb]. split; [|split; [reflexivity|]].
  - unfold find, load. cbn [collectionCache]. rewrite lookup_delete_eq. reflexivity.
  - intros other Hother. cbn [collectionCache]. apply lookup_delete_ne. congruence.
Qed.

Lemma invalidateCache_forces_reload_witness :
  fst (find "designs" [] []
         (invalidateCache (Some "designs")
            (snd (insertOne (sample_browser true) "designs" [("title", VStr "Loft")]
                            "2024-05-01T10:00:00.000Z" empty_store))))
  = Return [ [("title", VStr "Loft"); ("_id", VStr "id_0");
              ("createdAt", VStr "2024-05-01T10:00:00.000Z");
              ("updatedAt", VStr "2024-05-01T10:00:00.000Z")] ].
Proof.
  refine (proj1 (proj1 (invalidateCache_forces_reload
                          (snd (insertOne (sample_browser true) "designs"
                                  [("title", VStr "Loft")]
                                  "2024-05-01T10:00:00.000Z" empty_store)))
                   "designs" [] [] _)).
  discriminate.
Defined.

(** ** The backing medium as a round trip *)

Lemma stringify_plain (v : value) :
  plain v = true -> exists j, JSON_stringify v = Some j /\ JSON_parse j = v.
Proof.
  revert v. fix IH 1.
  intros [| |b|n|s|l|o|s]; simpl; intros Hp; try discriminate; try (eexists; split; reflexivity).
  - assert (H : map JSON_parse
                  ((fix elems (l : list value) : list json :=
                      match l with
                      | [] => []
                      | x :: rest =>
                          match JSON_stringify x with
                          | Some j => j :: elems rest
                          | None => JNull :: elems rest
                          end
                      end) l) = l).
    { induction l as [|x l IHl]; [reflexivity|].
      apply andb_true_iff in Hp as [Hx Hl].
      destruct (IH x Hx) as (j & Hj & Hparse). rewrite Hj. simpl.
      rewrite Hparse, (IHl Hl). reflexivity. }
    eexists. split; [reflexivity|]. simpl. rewrite H. reflexivity.
  - assert (H : (fix props (m : jobj) : obj :=
                   match m with
                   | [] => []
                   | (k, x) :: rest => (k, JSON_parse x) :: props rest
                   end)
                  ((fix members (o : obj) : jobj :=
                      match o with
                      | [] => []
                      | (k, x) :: rest =>
                          match JSON_stringify x with
                          | Some j => (k, j) :: members rest
                          | None => members rest
                          end
                      end) o) = o).
    { induction o as [|[k x] o IHo]; [reflexivity|].
      apply andb_true_iff in Hp as [Hx Ho].
      destruct (IH x Hx) as (j & Hj & Hparse). rewrite Hj.
      rewrite Hparse, (IHo Ho). reflexivity. }
    eexists. split; [reflexivity|]. simpl. rewrite H. reflexivity.
Qed.

Lemma parse_stringify_doc (d : obj) :
  plain_doc d = true -> parse_doc (stringify_doc d) = d.
Proof.
  intros Hp. destruct (stringify_plain (VObj d) Hp) as (j & Hj & Hparse).
  unfold parse_doc, stringify_doc. rewrite Hj.
  cbn [JSON_stringify] in Hj. injection Hj as <-.
  rewrite Hparse. reflexivity.
Qed.

Lemma parse_stringify_items (items : list obj) :
  forallb plain_doc items = true -> parse_items (stringify_items items) = items.
Proof.
  induction items as [|d items IH]; simpl; [reflexivity|].
  intros H. apply andb_true_iff in H as [Hd Hitems].
  rewrite (parse_stringify_doc d Hd), (IH Hitems). reflexivity.
Qed.

(** ** The two tiers after a write *)




(** C9, amended. When a mutating call throws, the backing medium is as
    it was before the call. An insert can only throw at the write, and
    [updateOne] and [deleteOne] throw either in the matcher (a malformed
    [$regex]), and then nothing has changed, or at the write. A throw at
    the write is not rolled back: the cache entry of the collection is
    the array the call was writing, the old documents followed by the
    stamped new ones for an insert, the old array with the first
    selected document updated, or removed, for [updateOne] and
    [deleteOne]. *)
Theorem failed_mutation_leaves_cache_written
  (B : browser) (name : string) (st : store) :
  (forall doc now e st',
      insertOne B name doc now st = (Throw e, st') ->
      e = QuotaExceededError /\
      localStorage st' = localStorage st /\
      collectionCache st'
      = <[name := (current name st ++ [fst (stamp B doc now st)])%list]>
          (collectionCache st)) /\
  (forall docs now e st',
      insertMany B name docs now st = (Throw e, st') ->
      e = QuotaExceededError /\
      localStorage st' = localStorage st /\
      collectionCache st'
      = <[name := (current name st ++ fst (stamp_all B docs now st))%list]>
          (collectionCache st)) /\
  (forall query set now e st',
      updateOne B name query set now st = (Throw e, st') ->
      localStorage st' = localStorage st /\
      ((e = SyntaxError /\ st' = st) \/
       (e = QuotaExceededError /\
        exists index,
          findIndex (selects B query) (current name st) = Return (Some index) /\
          collectionCache st'
          = <[name := alter (apply_update set now) index (current name st)]>
              (collectionCache st)))) /\
  (forall query e st',
      deleteOne B name query st = (Throw e, st') ->
      localStorage st' = localStorage st /\
      ((e = SyntaxError /\ st' = st) \/
       (e = QuotaExceededError /\
        exists index,
          findIndex (selects B query) (current name st) = Return (Some index) /\
          collectionCache st'
          = <[name := delete index (current name st)]> (collectionCache st)))).
Proof.
  split; [|split; [|split]].
  - intros doc now e st'. unfold insertOne.
    pose proof (stamp_frame B doc now st) as [Hc Hl].
    destruct (stamp B doc now st) as [doc' st1]; cbn [fst snd] in *.
    rewrite (current_frame name st st1 Hc Hl). unfold commit.
    destruct (setItem_fits B (storage_key name) _); [discriminate|].
    intros H. injection H as <- <-. cbn [collectionCache localStorage].
    rewrite Hc. auto.
  - intros docs now e st'. unfold insertMany.
    pose proof (stamp_all_frame B docs now st) as [Hc Hl].
    destruct (stamp_all B docs now st) as [docs' st1]; cbn [fst snd] in *.
    unfold commit.
    destruct (setItem_fits B (storage_key name) _); [discriminate|].
    intros H. injection H as <- <-. cbn [collectionCache localStorage].
    rewrite Hc. auto.
  - intros query set now e st'. unfold updateOne.
    destruct (findIndex (selects B query) (current name st)) as [[i|]|e0] eqn:E.
    + unfold commit.
      destruct (setItem_fits B (storage_key name) _); [discriminate|].
      intros H. injection H as <- <-. cbn [collectionCache localStorage].
      split; [reflexivity|]. right. split; [reflexivity|]. exists i. auto.
    + discriminate.
    + intros H. injection H as <- <-. split; [reflexivity|]. left.
      apply findIndex_throws in E as [d Hd]. apply selects_throws in Hd. auto.
  - intros query e st'. unfold deleteOne.
    destruct (findIndex (selects B query) (current name st)) as [[i|]|e0] eqn:E.
    + unfold commit.
      destruct (setItem_fits B (storage_key name) _); [discriminate|].
      intros H. injection H as <- <-. cbn [collectionCache localStorage].
      split; [reflexivity|]. right. split; [reflexivity|]. exists i. auto.
    + discriminate.
    + intros H. injection H as <- <-. split; [reflexivity|]. left.
      apply findIndex_throws in E as [d Hd]. apply selects_throws in Hd. auto.
Qed.

Lemma failed_mutation_leaves_cache_written_witness :
  QuotaExceededError = QuotaExceededError /\
  localStorage refused_insert = localStorage empty_store /\
  collectionCache refused_insert
  = <["designs" := (current "designs" empty_store
                    ++ [fst (stamp (sample_browser false) [("title", VStr "Loft")]
                               "2024-05-01T10:00:00.000Z" empty_store)])%list]>
      (collectionCache empty_store).
Proof.
  apply (proj1 (failed_mutation_leaves_cache_written (sample_browser false) "designs"
                  empty_store)
           [("title", VStr "Loft")] "2024-05-01T10:00:00.000Z").
  vm_compute. reflexivity.
Defined.

(** X7. Documents without [undefined] and without [ObjectId] instances
    survive the backing medium: when the cache entry of a collection
    agrees with the backing medium and holds only such documents,
    dropping the entry and reading again gives back the same array. An
    [ObjectId] instance does not: it is written as the object of its
    field [id] and read back as that plain object. *)
Theorem plain_documents_survive_reload
  (name : string) (st : store) (items : list obj) (query sortOptions : obj) :
  name <> "" ->
  collectionCache st !! name = Some items ->
  consistent st name ->
  forallb plain_doc items = true ->
  fst (find name query sortOptions (invalidateCache (Some name) st)) = Return items /\
  forall s, JSON_parse <$> JSON_stringify (VObjectId s) = Some (VObj [("id", VStr s)]).
Proof.
  intros Hname Hcache Hcons Hplain. split; [|reflexivity].
  unfold invalidateCache.
  destruct (String.eqb_spec name "") as [->|_]; [congruence|].
  cbn [negb]. unfold find, load. cbn [collectionCache]. rewrite lookup_delete_eq.
  cbn [fst]. f_equal.
  specialize (Hcons items Hcache). unfold persisted in Hcons. unfold stored.
  cbn [localStorage].
  destruct (localStorage st !! storage_key name) as [text|].
  - rewrite <- Hcons. apply parse_stringify_items, Hplain.
  - destruct items; [reflexivity|discriminate].
Qed.

Lemma plain_documents_survive_reload_witness :
  fst (find "designs" [] []
         (invalidateCache (Some "designs")
            (snd (insertOne (sample_browser true) "designs" [("title", VStr "Loft")]
                            "2024-05-01T10:00:00.000Z" empty_store))))
  = Return [ [("title", VStr "Loft"); ("_id", VStr "id_0");
              ("createdAt", VStr "2024-05-01T10:00:00.000Z");
              ("updatedAt", VStr "2024-05-01T10:00:00.000Z")] ].
Proof.
  refine (proj1 (plain_documents_survive_reload "designs"
                   (snd (insertOne (sample_browser true) "designs"
                           [("title", VStr "Loft")]
                           "2024-05-01T10:00:00.000Z" empty_store))
                   _ [] [] _ _ _ _)).
  - discriminate.
  - vm_compute. reflexivity.
  - intros items H. vm_compute in H. injection H as <-. vm_compute. reflexivity.
  - reflexivity.
Defined.

(** ** Counting against finding *)

Lemma filter_items_none (p : obj -> outcome bool) (items : list obj) :
  (forall d, d ∈ items -> p d = Return false) -> filter_items p items = Return [].
Proof.
  induction items as [|d items IH]; intros H; simpl; [reflexivity|].
  rewrite (H d) by apply list_elem_of_here.
  rewrite IH; [reflexivity|].
  intros d' Hd'. apply H, list_elem_of_further, Hd'.
Qed.

Lemma find_first_some (p : obj -> outcome bool) (items : list obj) (d : obj) :
  (forall x, x ∈ items -> exists b, p x = Return b) ->
  d ∈ items -> p d = Return true ->
  exists d', find_first p items = Return (Some d') /\ d' ∈ items /\ p d' = Return true.
Proof.
  induction items as [|x items IH]; intros Htotal Hd Hp.
  - apply elem_of_nil in Hd as [].
  - simpl. destruct (Htotal x) as [[|] Hx]; [apply list_elem_of_here| |]; rewrite Hx.
    + exists x. split; [reflexivity|]. split; [apply list_elem_of_here|exact Hx].
    + apply elem_of_cons in Hd as [->|Hd]; [congruence|].
      destruct IH as (d' & Hfind & Hin & Hp'); auto.
      { intros y Hy. apply Htotal, list_elem_of_further, Hy. }
      exists d'. split; [exact Hfind|]. split; [apply list_elem_of_further, Hin|exact Hp'].
Qed.

(** X8. [countDocuments] has no shortcut for [_id]: with the filter
    [{_id: toObjectId(s)}] it compares the JSON text of each stored
    identifier with that of the [ObjectId], so on a collection whose
    identifiers are strings (the ones the store assigns) it counts
    nothing, while [findOne] with the same filter returns the document
    whose identifier is [s]. *)
Theorem countDocuments_has_no_id_shortcut
  (B : browser) (name : string) (s : string) (st : store) :
  (forall d, d ∈ fst (load name st) -> exists t, lookup_prop d "_id" = VStr t) ->
  fst (countDocuments B name [("_id", VObjectId s)] st) = Return 0%nat /\
  (forall d, d ∈ fst (load name st) -> lookup_prop d "_id" = VStr s ->
             exists d', fst (findOne B name [("_id", VObjectId s)] st) = Return (Some d') /\
                        lookup_prop d' "_id" = VStr s).
Proof.
  intros Hids. unfold countDocuments, findOne.
  destruct (load name st) as [items st1]; cbn [fst] in *. split.
  - cbn [Object_keys map fst].
    rewrite filter_items_none; [reflexivity|].
    intros d Hd. destruct (Hids d Hd) as [t Ht].
    unfold matches_query, field_matches. cbn. rewrite Ht. reflexivity.
  - intros d Hd Hs.
    assert (Hsel : forall x,
               selects B [("_id", VObjectId s)] x
               = Return (strict_eq (id_of (lookup_prop x "_id")) (VStr s))).
    { intros x. reflexivity. }
    destruct (find_first_some (selects B [("_id", VObjectId s)]) items d)
      as (d' & Hfind & Hin & Hp).
    + intros x _. rewrite Hsel. eauto.
    + exact Hd.
    + rewrite Hsel, Hs. cbn. rewrite String.eqb_refl. reflexivity.
    + exists d'. rewrite Hfind. split; [reflexivity|].
      rewrite Hsel in Hp. destruct (Hids d' Hin) as [t Ht]. rewrite Ht in *.
      cbn in Hp. injection Hp as Hp. apply String.eqb_eq in Hp. congruence.
Qed.

Lemma countDocuments_has_no_id_shortcut_witness :
  fst (countDocuments (sample_browser true) "designs" [("_id", VObjectId "id_a")] two_designs)
  = Return 0%nat /\
  exists d',
    fst (findOne (sample_browser true) "designs" [("_id", VObjectId "id_a")] two_designs)
    = Return (Some d') /\
    lookup_prop d' "_id" = VStr "id_a".
Proof.
  assert (Hids : forall d, d ∈ fst (load "designs" two_designs) ->
                           exists t, lookup_prop d "_id" = VStr t).
  { intros d Hd. vm_compute in Hd. apply list_elem_of_In in Hd. simpl in Hd.
    destruct Hd as [<-|[<-|[]]]; eexists; reflexivity. }
  destruct (countDocuments_has_no_id_shortcut (sample_browser true) "designs" "id_a"
              two_designs Hids) as [Hcount Hfind].
  split; [exact Hcount|].
  apply (Hfind [("_id", VStr "id_a"); ("category", VStr "Kitchen")]).
  - vm_compute. apply list_elem_of_here.
  - reflexivity.
Defined.

(** ** Identifiers *)

(** X9. [fromObjectId] turns a truthy [_id] into its string and leaves
    every other field and a falsy [_id] as they are; the [_id] of its
    result is never an [ObjectId] instance, and applying it twice is
    applying it once. [fromObjectIdArray] does so to each document and
    gives the empty array for a missing one. *)
Theorem fromObjectId_idempotent (d : obj) :
  (exists d',
      fromObjectId (Some d) = Some d' /\
      fromObjectId (Some d') = Some d' /\
      instanceof_ObjectId (lookup_prop d' "_id") = false /\
      lookup_prop d' "_id"
      = (if truthy (lookup_prop d "_id") then VStr (ToString (lookup_prop d "_id"))
         else lookup_prop d "_id") /\
      forall k, k <> "_id" -> lookup_prop d' k = lookup_prop d k) /\
  fromObjectId None = None /\
  fromObjectIdArray None = [] /\
  forall docs, length (fromObjectIdArray (Some docs)) = length docs.
Proof.
  split; [|split; [reflexivity|split; [reflexivity|]]].
  - eexists. split; [reflexivity|].
    assert (Hid : lookup_prop
                    (set_prop d "_id"
                       (if truthy (lookup_prop d "_id")
                        then VStr (ToString (lookup_prop d "_id"))
                        else lookup_prop d "_id")) "_id"
                  = if truthy (lookup_prop d "_id")
                    then VStr (ToString (lookup_prop d "_id"))
                    else lookup_prop d "_id").
    { rewrite lookup_set_prop. reflexivity. }
    split; [|split; [|split; [exact Hid|]]].
    + unfold fromObjectId. rewrite Hid. f_equal.
      assert (Hset : forall (o : obj) k v w, set_prop (set_prop o k v) k w = set_prop o k w).
      { clear. intros o k v w. induction o as [|[k0 x] o IH]; simpl.
        - rewrite String.eqb_refl. reflexivity.
        - destruct (String.eqb_spec k0 k) as [->|Hne]; simpl.
          + rewrite String.eqb_refl. reflexivity.
          + destruct (String.eqb_spec k0 k); [congruence|]. rewrite IH. reflexivity. }
      rewrite Hset. f_equal.
      destruct (truthy (lookup_prop d "_id")) eqn:Ht.
      * generalize (ToString (lookup_prop d "_id")). intros s.
        destruct (truthy (VStr s)); reflexivity.
      * rewrite Ht. reflexivity.
    + rewrite Hid. destruct (truthy (lookup_prop d "_id")) eqn:Ht; [reflexivity|].
      destruct (lookup_prop d "_id"); try reflexivity; discriminate.
    + intros k Hk. rewrite lookup_set_prop.
      destruct (String.eqb_spec "_id" k); [congruence|reflexivity].
  - intros docs. simpl. apply length_map.
Qed.

(** * Further properties of the services *)

(** ** Wildcards and the keys of the services *)

Lemma prefix_append (p s : string) : String.prefix p (p ++ s) = true.
Proof.
  induction p as [|a p IH]; simpl; [destruct s; reflexivity|].
  destruct (ascii_dec a a); [exact IH|congruence].
Qed.

(** X10. The pattern ['design_*'] removes the entry [designService.getById]
    keeps for any identifier (the key ['design_' + id]), so the next
    lookup of that key misses whatever the time, and it leaves the
    entry of [designService.getAll] (the key ['designs_getAll']). *)
Theorem design_wildcard_covers_getById_keys
  (cache : gmap string cache_entry) (id : string) :
  invalidateServiceCache (Some "design_*") cache !! ("design_" ++ id) = None /\
  (forall now ttl,
      cached (invalidateServiceCache (Some "design_*") cache) ("design_" ++ id) now ttl
      = None) /\
  invalidateServiceCache (Some "design_*") cache !! "designs_getAll"
  = cache !! "designs_getAll".
Proof.
  assert (H : forall k,
             invalidateServiceCache (Some "design_*") cache !! k
             = if String.prefix "design_" k then None else cache !! k).
  { intros k. exact (lookup_delete_where (fun cacheKey => String.prefix "design_" cacheKey)
                       cache k). }
  assert (Hid : invalidateServiceCache (Some "design_*") cache !! ("design_" ++ id) = None).
  { rewrite H, (prefix_append "design_" id). reflexivity. }
  split; [exact Hid|]. split.
  - intros now ttl. unfold cached. rewrite Hid. reflexivity.
  - rewrite H. reflexivity.
Qed.

(** X11. The pattern ['users_*'], with which [authService.signup]
    invalidates, removes no entry of [userService.getById]: its keys are
    ['user_' + id], and none of them starts with ['users_']. *)
Theorem users_wildcard_misses_user_keys
  (cache : gmap string cache_entry) (id : string) :
  invalidateServiceCache (Some "users_*") cache !! ("user_" ++ id)
  = cache !! ("user_" ++ id).
Proof.
  exact (lookup_delete_where (fun cacheKey => String.prefix "users_" cacheKey)
           cache ("user_" ++ id)).
Qed.

(** ** [designService.getById] *)

(** X12. On a miss (no entry, or an expired one) for a non-empty
    identifier, [designService.getById] asks the store for the document
    with that identifier. A design that is not found gives [null] and
    nothing is cached. A design that is found is returned with its [id]
    and cached under ['design_' + id] with the time of the call: until
    five minutes later every call for that identifier returns that
    value and changes nothing, whatever the store holds by then. *)
Theorem getById_caches_only_found
  (B : browser) (id : string) (now1 now2 : Z) (a : app) :
  id <> "" ->
  cached (serviceCache a) ("design_" ++ id) now1 CACHE_EXPIRATION = None ->
  (fst (findOne B "designs" [("_id", VObjectId id)] (db a)) = Return None ->
   fst (getById B id now1 now2 a) = VNull /\
   serviceCache (snd (getById B id now1 now2 a)) = serviceCache a) /\
  (forall design,
      fst (findOne B "designs" [("_id", VObjectId id)] (db a)) = Return (Some design) ->
      fst (getById B id now1 now2 a) = with_id design /\
      forall now3 now4 db',
        now3 - now2 < CACHE_EXPIRATION ->
        getById B id now3 now4
          {| db := db'; serviceCache := serviceCache (snd (getById B id now1 now2 a)) |}
        = (with_id design,
           {| db := db'; serviceCache := serviceCache (snd (getById B id now1 now2 a)) |})).
Proof.
  intros Hid Hmiss.
  assert (Hoid : toObjectId B id (db a) = (VObjectId id, db a)).
  { unfold toObjectId, new_ObjectId.
    destruct (String.eqb_spec id "") as [->|_]; [congruence|reflexivity]. }
  unfold getById, getById_body. rewrite Hmiss, Hoid.
  destruct (findOne B "designs" [("_id", VObjectId id)] (db a)) as [[[design|]|e] db2];
    cbn [fst snd]; split; try discriminate.
  - intros design' H. injection H as <-. split; [reflexivity|].
    intros now3 now4 db' Hfresh. cbn [serviceCache].
    unfold cached, is_fresh. rewrite lookup_insert_eq. cbn [timestamp data].
    destruct (Z.ltb_spec (now3 - now2) CACHE_EXPIRATION); [reflexivity|lia].
  - intros _. split; reflexivity.
Qed.

Lemma getById_caches_only_found_witness :
  fst (getById (sample_browser true) "id_z" 1000 1001
               {| db := two_designs; serviceCache := ∅ |}) = VNull /\
  fst (getById (sample_browser true) "id_a" 1000 1001
               {| db := two_designs; serviceCache := ∅ |})
  = with_id [("_id", VStr "id_a"); ("category", VStr "Kitchen")].
Proof.
  split.
  - apply (proj1 (getById_caches_only_found (sample_browser true) "id_z" 1000 1001
                    {| db := two_designs; serviceCache := ∅ |}
                    ltac:(discriminate) eq_refl)).
    reflexivity.
  - apply (proj2 (getById_caches_only_found (sample_browser true) "id_a" 1000 1001
                    {| db := two_designs; serviceCache := ∅ |}
                    ltac:(discriminate) eq_refl)
             [("_id", VStr "id_a"); ("category", VStr "Kitchen")]).
    reflexivity.
Defined.

(** ** [withRetry] *)

Section RetryProperties.

Context {A E : Type}.

Lemma retry_from_success (fn : nat -> A + E) (k : nat) (a : A) :
  forall attempt left delay maxDelay,
    (forall j, (j < k)%nat -> exists e, fn (attempt + j)%nat = inr e) ->
    fn (attempt + k)%nat = inl a -> (k <= left)%nat ->
    retry_from fn attempt left delay maxDelay = (inl a, backoff delay maxDelay k).
Proof.
  induction k as [|k IH]; intros attempt left delay maxDelay Hfail Hok Hle.
  - rewrite Nat.add_0_r in Hok. destruct left; simpl; rewrite Hok; reflexivity.
  - destruct left as [|left]; [lia|].
    destruct (Hfail 0%nat) as [e He]; [lia|]. rewrite Nat.add_0_r in He.
    simpl. rewrite He.
    rewrite (IH (S attempt) left); [reflexivity| | |lia].
    + intros j Hj. destruct (Hfail (S j)) as [e' He']; [lia|].
      exists e'. rewrite <- He'. f_equal. lia.
    + rewrite <- Hok. f_equal. lia.
Qed.

Lemma retry_from_failure (fn : nat -> A + E) (left : nat) :
  forall attempt delay maxDelay e,
    (forall j, (j < left)%nat -> exists e', fn (attempt + j)%nat = inr e') ->
    fn (attempt + left)%nat = inr e ->
    retry_from fn attempt left delay maxDelay = (inr e, backoff delay maxDelay left).
Proof.
  induction left as [|left IH]; intros attempt delay maxDelay e Hfail Hlast.
  - rewrite Nat.add_0_r in Hlast. simpl. rewrite Hlast. reflexivity.
  - destruct (Hfail 0%nat) as [e0 He0]; [lia|]. rewrite Nat.add_0_r in He0.
    simpl. rewrite He0.
    rewrite (IH (S attempt) _ _ e); [reflexivity| |].
    + intros j Hj. destruct (Hfail (S j)) as [e' He']; [lia|].
      exists e'. rewrite <- He'. f_equal. lia.
    + rewrite <- Hlast. f_equal. lia.
Qed.

End RetryProperties.

Lemma backoff_closed_form (maxDelay : Z) (n : nat) :
  0 <= maxDelay ->
  forall d k, 0 <= d ->
    backoff (Z.min (d * 2 ^ Z.of_nat k) maxDelay) maxDelay n
    = map (fun i => Z.min (d * 2 ^ Z.of_nat i) maxDelay) (seq k n).
Proof.
  intros Hmax. induction n as [|n IH]; intros d k Hd; simpl; [reflexivity|].
  f_equal.
  replace (Z.min (Z.min (d * 2 ^ Z.of_nat k) maxDelay * 2) maxDelay)
    with (Z.min (d * 2 ^ Z.of_nat (S k)) maxDelay).
  - apply IH, Hd.
  - rewrite Nat2Z.inj_succ, Z.pow_succ_r by lia.
    assert (0 <= d * 2 ^ Z.of_nat k) by (apply Z.mul_nonneg_nonneg; [lia|apply Z.pow_nonneg; lia]).
    lia.
Qed.

(** X13. [withRetry] calls the function until it returns, at most
    [maxRetries + 1] times. When the call number [k] is the first to
    return, its value is the result and [k] delays were waited; when
    every call throws, the error of the last one is thrown after
    [maxRetries] delays; a negative [maxRetries] throws [undefined]
    without a call. With [0 <= initialDelay <= maxDelay] the delay
    number [i] is [min(initialDelay * 2^i, maxDelay)]; with the default
    values 300 and 3000 the delays are 300, 600 and 1200 ms. *)
Theorem withRetry_backs_off
  {A E : Type} (fn : nat -> A + E) (maxRetries : nat) (initialDelay maxDelay : Z) :
  (forall k a,
      (k <= maxRetries)%nat ->
      (forall j, (j < k)%nat -> exists e, fn j = inr e) ->
      fn k = inl a ->
      withRetry fn (Z.of_nat maxRetries) initialDelay maxDelay
      = (inl a, backoff initialDelay maxDelay k)) /\
  (forall e,
      (forall j, (j < maxRetries)%nat -> exists e', fn j = inr e') ->
      fn maxRetries = inr e ->
      withRetry fn (Z.of_nat maxRetries) initialDelay maxDelay
      = (inr (Some e), backoff initialDelay maxDelay maxRetries)) /\
  (forall m, m < 0 -> withRetry fn m initialDelay maxDelay = (inr None, [])) /\
  (0 <= initialDelay <= maxDelay ->
   forall n, backoff initialDelay maxDelay n
             = map (fun i => Z.min (initialDelay * 2 ^ Z.of_nat i) maxDelay) (seq 0 n)) /\
  backoff 300 3000 3 = [300; 600; 1200].
Proof.
  assert (Hneg : (Z.of_nat maxRetries <? 0) = false) by (apply Z.ltb_ge; lia).
  split; [|split; [|split; [|split]]].
  - intros k a Hk Hfail Hok. unfold withRetry. rewrite Hneg, Nat2Z.id.
    rewrite (retry_from_success fn k a 0 maxRetries); auto.
  - intros e Hfail Hlast. unfold withRetry. rewrite Hneg, Nat2Z.id.
    rewrite (retry_from_failure fn maxRetries 0 _ _ e); auto.
  - intros m Hm. unfold withRetry.
    destruct (Z.ltb_spec m 0); [reflexivity|lia].
  - intros [H0 Hle] n.
    pose proof (backoff_closed_form maxDelay n ltac:(lia) initialDelay 0%nat H0) as H.
    replace (Z.min (initialDelay * 2 ^ Z.of_nat 0) maxDelay) with initialDelay in H
      by (simpl; lia).
    exact H.
  - reflexivity.
Qed.

Lemma withRetry_backs_off_witness :
  withRetry (fun k : nat => if Nat.ltb k 2 then inr "offline" else inl k) 3 300 3000
  = (inl 2%nat, [300; 600]) /\
  withRetry (fun _ : nat => @inr nat string "offline") 3 300 3000
  = (inr (Some "offline"), [300; 600; 1200]).
Proof.
  split.
  - apply (proj1 (withRetry_backs_off
                    (fun k : nat => if Nat.ltb k 2 then inr "offline" else inl k)
                    3 300 3000) 2%nat 2%nat).
    + lia.
    + intros j Hj. exists "offline".
      destruct j as [|[|j]]; [reflexivity|reflexivity|lia].
    + reflexivity.
  - apply (proj1 (proj2 (withRetry_backs_off
                           (fun _ : nat => @inr nat string "offline") 3 300 3000))
             "offline").
    + intros j _. exists "offline". reflexivity.
    + reflexivity.
Defined.

(** ** [authService.updateProfile] *)

Lemma keys_set_prop (p : obj) (key k : string) (v : value) :
  existsb (String.eqb k) (Object_keys (set_prop p key v))
  = String.eqb k key || existsb (String.eqb k) (Object_keys p).
Proof.
  unfold Object_keys. induction p as [|[k0 w] p IH]; simpl.
  - rewrite orb_false_r. reflexivity.
  - destruct (String.eqb_spec k0 key) as [->|Hne]; simpl.
    + destruct (String.eqb k key); reflexivity.
    + rewrite IH.
      destruct (String.eqb k k0), (String.eqb k key); reflexivity.
Qed.

Lemma keys_copy_truthy (updates p : obj) (key k : string) :
  existsb (String.eqb k) (Object_keys (copy_truthy updates key p))
  = (String.eqb k key && truthy (lookup_prop updates key))
    || existsb (String.eqb k) (Object_keys p).
Proof.
  unfold copy_truthy. destruct (truthy (lookup_prop updates key)).
  - rewrite keys_set_prop, andb_true_r. reflexivity.
  - rewrite andb_false_r. reflexivity.
Qed.

Lemma lookup_copy_truthy (updates p : obj) (key k : string) :
  lookup_prop (copy_truthy updates key p) k
  = if String.eqb k key && truthy (lookup_prop updates key)
    then lookup_prop updates key else lookup_prop p k.
Proof.
  unfold copy_truthy. destruct (truthy (lookup_prop updates key)).
  - rewrite lookup_set_prop, andb_true_r, (String.eqb_sym key k). reflexivity.
  - rewrite andb_false_r. reflexivity.
Qed.

(** The object handed to [$set]: [updatedAt], and each of the six
    profile fields whose new value is truthy. *)
Lemma profileUpdates_spec (updates : obj) (now : string) (k : string) :
  String.eqb "updatedAt" k = false ->
  existsb (String.eqb k) (Object_keys (profileUpdates updates now)) = copied updates k /\
  (copied updates k = true ->
   lookup_prop (profileUpdates updates now) k = lookup_prop updates k).
Proof.
  intros Hu. unfold profileUpdates, copied, profile_fields.
  rewrite !keys_copy_truthy, !lookup_copy_truthy. cbn [Object_keys map fst existsb lookup_prop].
  rewrite (String.eqb_sym k "updatedAt"), Hu.
  destruct (String.eqb_spec k "avatar") as [->|Hav];
    [destruct (truthy (lookup_prop updates "avatar")); cbn; split; auto; discriminate|].
  destruct (String.eqb_spec k "website") as [->|Hwe];
    [destruct (truthy (lookup_prop updates "website")); cbn; split; auto; discriminate|].
  destruct (String.eqb_spec k "location") as [->|Hlo];
    [destruct (truthy (lookup_prop updates "location")); cbn; split; auto; discriminate|].
  destruct (String.eqb_spec k "phone") as [->|Hph];
    [destruct (truthy (lookup_prop updates "phone")); cbn; split; auto; discriminate|].
  destruct (String.eqb_spec k "bio") as [->|Hbi];
    [destruct (truthy (lookup_prop updates "bio")); cbn; split; auto; discriminate|].
  destruct (String.eqb_spec k "name") as [->|Hna];
    [destruct (truthy (lookup_prop updates "name")); cbn; split; auto; discriminate|].
  cbn. split; [reflexivity|discriminate].
Qed.

(** X14. [authService.updateProfile] for a non-empty user identifier.
    When no user has that identifier it answers ['User not found'] and
    changes nothing. When the user at [i] is the first with that
    identifier and the write fits, it succeeds, and the stored user
    then holds the time of the update under [updatedAt], the new value
    under each of [name], [bio], [phone], [location], [website] and
    [avatar] whose new value is truthy, and what it held before under
    every other key: a falsy value (the empty string) clears nothing,
    and no other field ([email], [password], [_id]) can be changed. *)
Theorem updateProfile_copies_truthy_fields
  (B : browser) (userId : string) (updates : obj) (now1 now2 : string) (st : store) :
  userId <> "" ->
  ((forall d, d ∈ current "users" st ->
              strict_eq (id_of (lookup_prop d "_id")) (VStr userId) = false) ->
   updateProfile B userId updates now1 now2 st
   = ({| success := false; error := Some "User not found" |}, st)) /\
  (forall (i : nat) (d : obj),
      current "users" st !! i = Some d ->
      strict_eq (id_of (lookup_prop d "_id")) (VStr userId) = true ->
      (forall j d', (j < i)%nat -> current "users" st !! j = Some d' ->
                    strict_eq (id_of (lookup_prop d' "_id")) (VStr userId) = false) ->
      setItem_fits B (storage_key "users")
        (stringify_items
           (alter (apply_update (Some (profileUpdates updates now1)) now2) i
                  (current "users" st))) = true ->
      exists st' d',
        updateProfile B userId updates now1 now2 st
        = ({| success := true; error := None |}, st') /\
        current "users" st' !! i = Some d' /\
        (forall j, j <> i -> current "users" st' !! j = current "users" st !! j) /\
        forall k,
          lookup_prop d' k
          = if String.eqb "updatedAt" k then VStr now2
            else if copied updates k then lookup_prop updates k
            else lookup_prop d k).
Proof.
  intros Hid.
  assert (Hoid : toObjectId B userId st = (VObjectId userId, st)).
  { unfold toObjectId, new_ObjectId.
    destruct (String.eqb_spec userId "") as [->|_]; [congruence|reflexivity]. }
  assert (Hsel : forall x,
             selects B [("_id", VObjectId userId)] x
             = Return (strict_eq (id_of (lookup_prop x "_id")) (VStr userId))).
  { intros x. reflexivity. }
  unfold updateProfile, updateOne. rewrite Hoid. split.
  - intros Hnone. rewrite findIndex_none; [reflexivity|].
    intros d Hd. rewrite Hsel, (Hnone d Hd). reflexivity.
  - intros i d Hi Hd Hbefore Hfits.
    remember (current "users" st) as items eqn:Hitems.
    rewrite (findIndex_first _ _ i d Hi).
    + unfold commit. rewrite Hfits. cbn [matchedCount Nat.eqb].
      eexists _, (apply_update (Some (profileUpdates updates now1)) now2 d).
      split; [reflexivity|].
      unfold current. cbn [collectionCache]. rewrite lookup_insert_eq.
      split; [rewrite list_lookup_alter_eq, Hi; reflexivity|].
      split; [intros j Hj; apply list_lookup_alter_ne; congruence|].
      intros k. rewrite lookup_apply_update.
      destruct (String.eqb "updatedAt" k) eqn:Hu; [reflexivity|].
      destruct (profileUpdates_spec updates now1 k Hu) as [Hkeys Hval].
      rewrite Hkeys. destruct (copied updates k); [apply Hval; reflexivity|reflexivity].
    + rewrite Hsel, Hd. reflexivity.
    + intros j d' Hj Hd'. rewrite Hsel, (Hbefore j d' Hj Hd'). reflexivity.
Qed.

Lemma updateProfile_copies_truthy_fields_witness :
  updateProfile (sample_browser true) "7" [("name", VStr "Ravi")] "T1" "T2" string_id_users
  = ({| success := false; error := Some "User not found" |}, string_id_users) /\
  exists st' d',
    updateProfile (sample_browser true) "5" [("name", VStr ""); ("bio", VStr "Architect")]
                  "T1" "T2" string_id_users
    = ({| success := true; error := None |}, st') /\
    current "users" st' !! 0%nat = Some d' /\
    lookup_prop d' "name" = VStr "Asha" /\
    lookup_prop d' "bio" = VStr "Architect".
Proof.
  split.
  - apply (proj1 (updateProfile_copies_truthy_fields (sample_browser true) "7"
                    [("name", VStr "Ravi")] "T1" "T2" string_id_users
                    ltac:(discriminate))).
    intros d Hd. vm_compute in Hd. apply list_elem_of_In in Hd. simpl in Hd.
    destruct Hd as [<-|[]]. reflexivity.
  - destruct (proj2 (updateProfile_copies_truthy_fields (sample_browser true) "5"
                       [("name", VStr ""); ("bio", VStr "Architect")] "T1" "T2"
                       string_id_users ltac:(discriminate))
                0%nat [("_id", VStr "5"); ("name", VStr "Asha")])
      as (st' & d' & Hrun & Hi & _ & Hk).
    + reflexivity.
    + reflexivity.
    + intros j d' Hj. lia.
    + reflexivity.
    + exists st', d'. split; [exact Hrun|]. split; [exact Hi|].
      split; rewrite Hk; reflexivity.
Defined.

(** ** The favourites *)

Lemma load_spec (name : string) (st : store) :
  collectionCache (snd (load name st)) !! name = Some (fst (load name st)) /\
  localStorage (snd (load name st)) = localStorage st /\
  draws (snd (load name st)) = draws st.
Proof.
  unfold load. destruct (collectionCache st !! name) as [items|] eqn:E; simpl.
  - auto.
  - rewrite lookup_insert_eq. auto.
Qed.

Lemma find_first_none_inv (p : obj -> outcome bool) (items : list obj) :
  find_first p items = Return None -> forall d, d ∈ items -> p d = Return false.
Proof.
  induction items as [|x items IH]; intros H d Hd.
  - apply elem_of_nil in Hd as [].
  - simpl in H. destruct (p x) as [[|]|e] eqn:Hx; try discriminate.
    apply elem_of_cons in Hd as [->|Hd]; [exact Hx|apply IH; assumption].
Qed.

Lemma json_eqb_refl (j : json) : json_eqb j j = true.
Proof. apply json_eqb_eq. reflexivity. Qed.

(** The filter of the favourites selects a document exactly when its
    [userId] is the string of the filter and the JSON text of its
    [designId] is that of the [ObjectId]; it never throws. *)
Lemma selects_favorite (B : browser) (userId designId : string) (d : obj) :
  selects B [("userId", VStr userId); ("designId", VObjectId designId)] d
  = Return (strict_eq (lookup_prop d "userId") (VStr userId)
            && same_text (JSON_stringify (lookup_prop d "designId"))
                         (Some (JObj [("id", JStr designId)]))).
Proof.
  unfold selects, matches_query, field_matches, deepCompare. cbn -[same_text strict_eq].
  destruct (strict_eq (lookup_prop d "userId") (VStr userId)); [|reflexivity].
  destruct (same_text _ _); reflexivity.
Qed.

Lemma toObjectId_nonempty (B : browser) (id : string) (st : store) :
  id <> "" -> toObjectId B id st = (VObjectId id, st).
Proof.
  intros Hid. unfold toObjectId, new_ObjectId.
  destruct (String.eqb_spec id "") as [->|_]; [congruence|reflexivity].
Qed.

(** What a completed [addFavorite] that found no favourite leaves: one
    document after the ones the collection had, the only one the filter
    selects. *)
Lemma addFavorite_inserted
  (B : browser) (userId designId : string) (now1 now2 : string)
  (st st' : store) (favorite : obj) :
  designId <> "" ->
  fst (findOne B "favorites" [("userId", VStr userId); ("designId", VObjectId designId)] st)
  = Return None ->
  addFavorite B userId designId now1 now2 st = (Some favorite, st') ->
  exists doc,
    collectionCache st' !! "favorites" = Some (fst (load "favorites" st) ++ [doc])%list /\
    lookup_prop doc "userId" = VStr userId /\
    lookup_prop doc "designId" = VObjectId designId /\
    lookup_prop favorite "_id" = VStr (ToString (lookup_prop doc "_id")) /\
    truthy (lookup_prop doc "_id") = true /\
    selects B [("userId", VStr userId); ("designId", VObjectId designId)] doc = Return true /\
    forall d, d ∈ fst (load "favorites" st) ->
              selects B [("userId", VStr userId); ("designId", VObjectId designId)] d
              = Return false.
Proof.
  intros Hid Hnone Hadd.
  set (query := [("userId", VStr userId); ("designId", VObjectId designId)]) in *.
  unfold addFavorite, favorite_filter in Hadd.
  rewrite (toObjectId_nonempty B designId st Hid) in Hadd. fold query in Hadd.
  unfold findOne in Hnone, Hadd.
  pose proof (load_spec "favorites" st) as (Hcache1 & Hstore1 & _).
  destruct (load "favorites" st) as [items st1]; cbn [fst snd] in *.
  rewrite Hnone in Hadd. rewrite (toObjectId_nonempty B designId st1 Hid) in Hadd.
  set (newFavorite := [("userId", VStr userId); ("designId", VObjectId designId);
                       ("createdAt", VStr now1)]) in *.
  destruct (insertOne B "favorites" newFavorite now2 st1) as [[r|e] st4] eqn:Hins;
    [|discriminate].
  injection Hadd as Hfav <-.
  apply insertOne_inv in Hins as (Hrid & Hcache & _).
  assert (Hcur : current "favorites" st1 = items).
  { unfold current. rewrite Hcache1. reflexivity. }
  rewrite Hcur in Hcache.
  set (doc := fst (stamp B newFavorite now2 st1)) in *.
  assert (Huser : lookup_prop doc "userId" = VStr userId).
  { unfold doc. rewrite stamp_lookup. reflexivity. }
  assert (Hdesign : lookup_prop doc "designId" = VObjectId designId).
  { unfold doc. rewrite stamp_lookup. reflexivity. }
  exists doc. split; [exact Hcache|]. split; [exact Huser|]. split; [exact Hdesign|].
  split; [|split; [apply stamp_id_truthy|split]].
  - rewrite Hrid in Hfav. fold doc in Hfav. unfold with_string_id in Hfav.
    destruct (lookup_prop doc "_id") eqn:E; try discriminate;
      injection Hfav as <-; reflexivity.
  - unfold query. rewrite selects_favorite, Huser, Hdesign. cbn.
    rewrite !String.eqb_refl. reflexivity.
  - apply find_first_none_inv, Hnone.
Qed.

(** X15. Favourites for a non-empty design identifier. When the pair
    was not a favourite yet and [addFavorite] completes, it has added
    one document, with the given [userId] and [designId], after the
    others; from then on [checkFavorite] answers [true] and changes
    nothing, and a second [addFavorite] returns a favourite and adds
    nothing: the state is what the first call left. *)
Theorem addFavorite_is_idempotent
  (B : browser) (userId designId : string) (now1 now2 : string)
  (st st' : store) (favorite : obj) :
  designId <> "" ->
  fst (findOne B "favorites" [("userId", VStr userId); ("designId", VObjectId designId)] st)
  = Return None ->
  addFavorite B userId designId now1 now2 st = (Some favorite, st') ->
  (exists doc,
      collectionCache st' !! "favorites" = Some (fst (load "favorites" st) ++ [doc])%list /\
      lookup_prop doc "userId" = VStr userId /\
      lookup_prop doc "designId" = VObjectId designId /\
      lookup_prop favorite "_id" = VStr (ToString (lookup_prop doc "_id"))) /\
  checkFavorite B userId designId st' = (true, st') /\
  forall now3 now4,
    snd (addFavorite B userId designId now3 now4 st') = st' /\
    exists favorite', fst (addFavorite B userId designId now3 now4 st') = Some favorite'.
Proof.
  intros Hid Hnone Hadd.
  destruct (addFavorite_inserted B userId designId now1 now2 st st' favorite Hid Hnone Hadd)
    as (doc & Hcache & Huser & Hdesign & Hfav & Htruthy & Hdoc & Hitems).
  set (query := [("userId", VStr userId); ("designId", VObjectId designId)]) in *.
  assert (Hfind : findOne B "favorites" query st' = (Return (Some doc), st')).
  { unfold findOne. rewrite (load_cached _ _ _ Hcache).
    rewrite (find_first_app _ _ _ Hitems). simpl. rewrite Hdoc. reflexivity. }
  split; [|split].
  - exists doc. auto.
  - unfold checkFavorite, favorite_filter.
    rewrite (toObjectId_nonempty B designId st' Hid). fold query.
    rewrite Hfind. reflexivity.
  - intros now3 now4. unfold addFavorite, favorite_filter.
    rewrite (toObjectId_nonempty B designId st' Hid). fold query.
    rewrite Hfind. cbn [fst snd]. split; [reflexivity|].
    unfold with_string_id.
    destruct (lookup_prop doc "_id"); try discriminate; eexists; reflexivity.
Qed.

Lemma addFavorite_is_idempotent_witness :
  checkFavorite (sample_browser true) "u1" "id_a"
    (snd (addFavorite (sample_browser true) "u1" "id_a" "T1" "T2" empty_store))
  = (true, snd (addFavorite (sample_browser true) "u1" "id_a" "T1" "T2" empty_store)).
Proof.
  refine (proj1 (proj2 (addFavorite_is_idempotent (sample_browser true) "u1" "id_a"
                          "T1" "T2" empty_store _
                          [("userId", VStr "u1"); ("designId", VObjectId "id_a");
                           ("createdAt", VStr "T1"); ("_id", VStr "id_0");
                           ("updatedAt", VStr "T2")] _ _ _))).
  - discriminate.
  - reflexivity.
  - vm_compute. reflexivity.
Defined.




(** ** [userService.getById] *)

(** X17. On a miss for a non-empty identifier, the user
    [userService.getById] returns, and caches under ['user_' + id], has
    [undefined] under [password], its [_id] as a string, and every
    other field as stored; the stored document is not changed. *)
Theorem userService_getById_hides_password
  (B : browser) (id : string) (now1 now2 : Z) (a : app) (user : obj) :
  id <> "" ->
  cached (serviceCache a) ("user_" ++ id) now1 CACHE_EXPIRATION = None ->
  fst (findOne B "users" [("_id", VObjectId id)] (db a)) = Return (Some user) ->
  exists u,
    fst (userService_getById B id now1 now2 a) = VObj u /\
    serviceCache (snd (userService_getById B id now1 now2 a)) !! ("user_" ++ id)
    = Some (entry (VObj u) now2) /\
    lookup_prop u "password" = VUndefined /\
    lookup_prop u "_id"
    = (if truthy (lookup_prop user "_id") then VStr (ToString (lookup_prop user "_id"))
       else lookup_prop user "_id") /\
    (forall k, k <> "password" -> k <> "_id" -> lookup_prop u k = lookup_prop user k) /\
    fst (findOne B "users" [("_id", VObjectId id)]
           (db (snd (userService_getById B id now1 now2 a))))
    = Return (Some user).
Proof.
  intros Hid Hmiss Hfind.
  unfold userService_getById. rewrite Hmiss, (toObjectId_nonempty B id (db a) Hid).
  pose proof (load_spec "users" (db a)) as (Hcache & _ & _).
  unfold findOne in *.
  destruct (load "users" (db a)) as [items db2]. cbn [fst snd] in *.
  rewrite Hfind. cbn [fst snd db serviceCache].
  eexists. split; [reflexivity|].
  split; [apply lookup_insert_eq|].
  split; [rewrite lookup_set_prop; reflexivity|].
  split; [rewrite !lookup_set_prop; reflexivity|].
  split.
  - intros k Hp Hi. rewrite !lookup_set_prop.
    destruct (String.eqb_spec "password" k); [congruence|].
    destruct (String.eqb_spec "_id" k); [congruence|reflexivity].
  - rewrite (load_cached _ _ _ Hcache). exact Hfind.
Qed.

Lemma userService_getById_hides_password_witness :
  exists u,
    fst (userService_getById (sample_browser true) "5" 1000 1001
           {| db := string_id_users; serviceCache := ∅ |}) = VObj u /\
    lookup_prop u "password" = VUndefined /\
    lookup_prop u "name" = VStr "Asha".
Proof.
  destruct (userService_getById_hides_password (sample_browser true) "5" 1000 1001
              {| db := string_id_users; serviceCache := ∅ |}
              [("_id", VStr "5"); ("name", VStr "Asha")])
    as (u & Hu & _ & Hpw & _ & Hk & _).
  - discriminate.
  - reflexivity.
  - reflexivity.
  - exists u. split; [exact Hu|]. split; [exact Hpw|].
    rewrite Hk by discriminate. reflexivity.
Defined.

(** ** [ObjectId] *)

(** X18. [toObjectId(id).toString()] is [id] for a non-empty [id], and
    then no random draw is taken; for the empty string the identifier
    is a fresh ['id_'] followed by a draw, never the empty string.
    [equals] between two [ObjectId]s compares their strings: it holds
    of an identifier and itself and does not depend on the side. *)
Theorem toObjectId_round_trip (B : browser) (st : store) :
  (forall id, id <> "" ->
              toObjectId B id st = (VObjectId id, st) /\
              ToString (fst (toObjectId B id st)) = id) /\
  (exists g, fst (toObjectId B "" st) = VObjectId g /\ g <> "" /\
             g = "id_" ++ Math_random B (draws st) /\
             draws (snd (toObjectId B "" st)) = S (draws st)) /\
  (forall x y, ObjectId_equals x (VObjectId y) = true <-> x = y) /\
  (forall x y, ObjectId_equals x (VObjectId y) = ObjectId_equals y (VObjectId x)).
Proof.
  split; [|split; [|split]].
  - intros id Hid. rewrite (toObjectId_nonempty B id st Hid). split; reflexivity.
  - eexists. split; [reflexivity|]. split; [discriminate|]. split; reflexivity.
  - intros x y. unfold ObjectId_equals. cbn [ToString]. apply String.eqb_eq.
  - intros x y. unfold ObjectId_equals. cbn [ToString]. apply String.eqb_sym.
Qed.

Lemma toObjectId_round_trip_witness :
  toObjectId (sample_browser true) "id_a" empty_store = (VObjectId "id_a", empty_store) /\
  ToString (fst (toObjectId (sample_browser true) "id_a" empty_store)) = "id_a".
Proof.
  apply (proj1 (toObjectId_round_trip (sample_browser true) empty_store) "id_a").
  discriminate.
Defined.
